(** * The authenticated dispatch layer of digikey/v4/api.py

    A shallow embedding of [_DigikeyApiWrapper] and [DigikeyApi]
    (src/digikey/v4/api.py) and the properties of its dispatch, metadata
    extraction and error paths.

    Python objects that the caller shares with the code (the [api_limits] and
    [status] dicts, the [DigikeyApi] instance) live in a store indexed by
    object identity, so a dict passed for both sinks is one object here too.
    Exceptions are results: a computation returns a value or raises, and the
    store keeps whatever was written before the raise.  The collaborators
    that are not part of api.py (the token handler, the generated API
    classes, the generated [Configuration] constructors, the builtin [int] on
    text) are the fields of the class [Collaborators]; every request made to
    the token handler or to a generated operation is kept in a trace, and
    what they do outside the process shows in the state of the world.  They act on the outside world
    and are never handed the sinks, so they do not write the store.

    Arguments are taken at their annotated types where api.py does not test
    them: the response headers are a [Dict[str, str]], the status code of a
    response is an [int], [client_sandbox] is a [bool].  The sinks, the
    credentials and [module] are tested by the code and range over more.
    The calls of [logger] write nowhere the code reads and are left out. *)

From Stdlib Require Import ZArith String Ascii List.
From stdpp Require Import base gmap strings list.
Import ListNotations.

Local Open Scope Z_scope.
Local Open Scope string_scope.
Local Open Scope list_scope.

(** ** Python values and objects *)

(** Identity of a heap-allocated Python object. *)
Definition loc := nat.

(** The values api.py passes around: [None], an [int], a [str], or a
    reference to a mutable object. *)
Inductive value :=
| VNone
| VInt (n : Z)
| VStr (s : string)
| VRef (l : loc).

#[global] Instance value_eq_dec : EqDecision value.
Proof. solve_decision. Defined.

(** The request model classes the public operations assert on. *)
Inductive model_class :=
| KeywordRequest
| BatchProductDetailsRequest
| OtherModel (name : string).

#[global] Instance model_class_eq_dec : EqDecision model_class.
Proof. solve_decision. Defined.

(** The four attributes [DigikeyApi.__init__] stores on [self]. *)
Record DigikeyApi := {
  client_id : value;
  client_secret : value;
  storage_path : value;
  client_sandbox : bool
}.

(** What a reference can point to.  Only [ODict] passes
    [isinstance(x, dict)].  A dict is kept as the mapping it is: two dicts
    are the same here when they hold the same entries (Python's [==]); the
    order in which a Python dict lists its keys is not kept. *)
Inductive object :=
| ODict (d : gmap string value)
| OList (xs : list value)
| OModel (cls : model_class)
| ODigikeyApi (o : DigikeyApi).

(** ** Modules, classes and exceptions *)

(** The [module] argument of the wrapper: the three generated packages
    imported by api.py, or any other module object. *)
Inductive py_module :=
| productinformation
| ordersupport
| batchproductdetails
| other_module (name : string).

#[global] Instance py_module_eq_dec : EqDecision py_module.
Proof. solve_decision. Defined.

Inductive api_class := ProductSearchApi | OrderDetailsApi | BatchSearchApi.

Inductive config_class :=
| ProductInfoConfiguration
| OrderDetailsConfiguration
| BatchSearchConfiguration.

(** Exceptions.  [ApiException pkg status] is the class [ApiException] of
    the module [pkg.rest]; api.py imports the one of
    [digikey.v4.productinformation.rest] under the name
    [ProductInfoApiException], each generated package having its own.
    Every constructor is a subclass of Python's [Exception]. *)
Inductive exn :=
| KeyError (key : string)
| ValueError (msg : string)
| TypeError (msg : string)
| AttributeError (name : string)
| AssertionError
| DigikeyError (msg : string)
| ApiException (pkg : py_module) (status : value)
| OtherError (name : string).

Inductive outcome (A : Type) :=
| Return (a : A)
| Raise (e : exn).
Arguments Return {A} a.
Arguments Raise {A} e.

(** ** Records of the collaborators *)

Module Configuration.
Record t := {
  cls : config_class;
  api_key : gmap string value;
  host : string;
  access_token : string
}.
Definition set_api_key (k : string) (v : value) (c : t) : t :=
  {| cls := cls c; api_key := <[k := v]> (api_key c);
     host := host c; access_token := access_token c |}.
Definition set_host (h : string) (c : t) : t :=
  {| cls := cls c; api_key := api_key c;
     host := h; access_token := access_token c |}.
Definition set_access_token (a : string) (c : t) : t :=
  {| cls := cls c; api_key := api_key c;
     host := host c; access_token := a |}.
End Configuration.

(** The token object returned by [TokenHandler(...).get_access_token()]:
    its [access_token] attribute and the result of [get_authorization()]. *)
Module Token.
Record t := {
  access_token : string;
  get_authorization : string
}.
End Token.

(** The keyword arguments of the [TokenHandler] constructor. *)
Record TokenHandler := {
  a_id : value;
  a_secret : value;
  a_token_storage_path : value;
  version : Z;
  th_sandbox : bool
}.

(** [module.ApiClient(configuration)] and [apiclass(api_client)]. *)
Record ApiClient := {
  client_module : py_module;
  configuration : Configuration.t
}.

Record ApiInstance := {
  instance_class : api_class;
  api_client : ApiClient
}.

(** The 3-tuple a generated [*_with_http_info] operation returns. *)
Record response := {
  payload : value;
  status_code : Z;
  headers : gmap string string
}.

(** A request to a collaborator: the token handler asked for a token, or a
    generated operation called, with the arguments given.  The request is
    booked when it is made; whether the collaborator then reaches the
    network is its own matter and shows in the world it leaves. *)
Inductive event :=
| EvGetAccessToken (req : TokenHandler)
| EvApiCall (inst : ApiInstance) (name : string)
            (args : list value) (kwargs : gmap string value).

Record _DigikeyApiWrapper := {
  sandbox : bool;
  _digikeyApiToken : Token.t;
  _api_instance : ApiInstance;
  authorization : string;
  x_digikey_client_id : value;
  wrapped_function_name : string
}.

(** ** A decimal reader, used to run the code on concrete headers

    Surrounding ASCII white space, an optional sign, then digits, where
    single underscores may separate digits. *)

Definition is_space (c : ascii) : bool :=
  let n := nat_of_ascii c in
  ((9 <=? n) && (n <=? 13))%nat || (n =? 32)%nat.

Definition digit_of (c : ascii) : option Z :=
  let n := nat_of_ascii c in
  if ((48 <=? n) && (n <=? 57))%nat then Some (Z.of_nat n - 48) else None.

Fixpoint all_space (s : string) : bool :=
  match s with
  | EmptyString => true
  | String c rest => is_space c && all_space rest
  end.

(** [after_digit] tells whether the previous character was a digit: the
    text may end, or an underscore may follow, only then. *)
Fixpoint read_digits (s : string) (acc : Z) (after_digit : bool) : option Z :=
  match s with
  | EmptyString => if after_digit then Some acc else None
  | String c rest =>
      match digit_of c with
      | Some d => read_digits rest (10 * acc + d) true
      | None =>
          if after_digit && Ascii.eqb c "_" then read_digits rest acc false
          else if after_digit && all_space s then Some acc
          else None
      end
  end.

Fixpoint skip_space (s : string) : string :=
  match s with
  | String c rest => if is_space c then skip_space rest else s
  | EmptyString => s
  end.

Definition decimal_int (s : string) : option Z :=
  match skip_space s with
  | String "-" rest => Z.opp <$> read_digits rest 0 false
  | String "+" rest => read_digits rest 0 false
  | body => read_digits body 0 false
  end.

(** ** The code *)

(** The collaborators of api.py that live outside it. *)
Class Collaborators := {
  (** The state of everything outside the process (token file, network). *)
  World : Type;
  (** The builtin [int] on a [str]: [None] when it raises [ValueError]. *)
  int_str : string → option Z;
  (** [ProductInfoConfiguration()], [OrderDetailsConfiguration()] and
      [BatchSearchConfiguration()] of the generated packages. *)
  new_Configuration : config_class → Configuration.t;
  (** [TokenHandler(...).get_access_token()] of digikey.oauth.oauth2. *)
  get_access_token : TokenHandler → World → outcome Token.t * World;
  (** [getattr(api_instance, name)]: the bound generated operation, if the
      class has one of that name. *)
  getattr_operation :
    ApiInstance → string →
    option (list value → gmap string value → World → outcome response * World)
}.

Section Api.

Context `{Collaborators}.

Record state := {
  heap : gmap loc object;
  world : World;
  trace : list event
}.

Definition set_heap (h : gmap loc object) (s : state) : state :=
  {| heap := h; world := world s; trace := trace s |}.

(** A Python computation: runs on a state, returns or raises, and leaves a
    state either way. *)
Definition py (A : Type) : Type := state → outcome A * state.

#[global] Instance py_ret : MRet py := λ A a s, (Return a, s).

#[global] Instance py_bind : MBind py := λ A B k m s,
  match m s with
  | (Return a, s') => k a s'
  | (Raise e, s') => (Raise e, s')
  end.

Definition raise {A} (e : exn) : py A := λ s, (Raise e, s).

(** [try: body except ...]: [handler e] is the body of the first
    [except] clause that matches [e], if one does. *)
Definition try_except {A} (body : py A) (handler : exn → option (py A)) : py A :=
  λ s,
  match body s with
  | (Return a, s') => (Return a, s')
  | (Raise e, s') =>
      match handler e with
      | Some h => h s'
      | None => (Raise e, s')
      end
  end.

(** *** Builtins *)

(** [d[k]] on a [Dict[str, str]]. *)
Definition getitem (d : gmap string string) (k : string) : py string :=
  match d !! k with
  | Some v => mret v
  | None => raise (KeyError k)
  end.

(** [int(v)]. *)
Definition int (v : value) : py Z :=
  match v with
  | VInt n => mret n
  | VStr s =>
      match int_str s with
      | Some n => mret n
      | None => raise (ValueError "invalid literal for int() with base 10")
      end
  | VNone | VRef _ =>
      raise (TypeError "int() argument must be a string, a bytes-like object or a real number")
  end.

(** [x is not None and isinstance(x, dict)] in store [h]. *)
Definition is_dict (h : gmap loc object) (x : value) : bool :=
  negb (bool_decide (x = VNone)) &&
  match x with
  | VRef l => match h !! l with Some (ODict _) => true | _ => false end
  | _ => false
  end.

Definition not_None_and_isinstance_dict (x : value) : py bool :=
  λ s, (Return (is_dict (heap s) x), s).

(** [x[k] = v]. *)
Definition setitem (x : value) (k : string) (v : value) : py unit :=
  λ s,
  match x with
  | VRef l =>
      match heap s !! l with
      | Some (ODict d) => (Return tt, set_heap (<[l := ODict (<[k := v]> d)]> (heap s)) s)
      | _ => (Raise (TypeError "object does not support item assignment"), s)
      end
  | _ => (Raise (TypeError "object does not support item assignment"), s)
  end.

(** *** _DigikeyApiWrapper._remaining_requests (api.py 114-140) *)

Definition _remaining_requests (header : gmap string string) (api_limits : value)
  : py unit :=
  try_except
    (rate_limit ← getitem header "X-RateLimit-Limit";
     rate_limit_rem ← getitem header "X-RateLimit-Remaining";
     is_sink ← not_None_and_isinstance_dict api_limits;
     if (is_sink : bool) then
       n ← int (VStr rate_limit);
       setitem api_limits "api_requests_limit" (VInt n);;
       m ← int (VStr rate_limit_rem);
       setitem api_limits "api_requests_remaining" (VInt m)
     else mret tt)
    (λ e,
      match e with
      | KeyError _ | ValueError _ =>
          Some (is_sink ← not_None_and_isinstance_dict api_limits;
                if (is_sink : bool) then
                  setitem api_limits "api_requests_limit" VNone;;
                  setitem api_limits "api_requests_remaining" VNone
                else mret tt)
      | _ => None
      end).

(** *** _DigikeyApiWrapper._store_api_statuscode (api.py 142-154) *)

Definition _store_api_statuscode (statuscode : value) (status : value) : py unit :=
  is_sink ← not_None_and_isinstance_dict status;
  if (is_sink : bool) then
    n ← int statuscode;
    setitem status "code" (VInt n)
  else mret tt.

(** *** _DigikeyApiWrapper.__init__ (api.py 36-112) *)

(** The dict literals [apinames] and [apiclasses], keyed by module. *)
Definition apinames (module : py_module) : option string :=
  match module with
  | productinformation => Some "products"
  | ordersupport => Some "OrderDetails"
  | batchproductdetails => Some "BatchSearch"
  | other_module _ => None
  end.

Definition apiclasses (module : py_module) : option api_class :=
  match module with
  | productinformation => Some ProductSearchApi
  | ordersupport => Some OrderDetailsApi
  | batchproductdetails => Some BatchSearchApi
  | other_module _ => None
  end.

Definition module_name (module : py_module) : string :=
  match module with
  | productinformation => "digikey.v4.productinformation"
  | ordersupport => "digikey.v4.ordersupport"
  | batchproductdetails => "digikey.v4.batchproductdetails"
  | other_module name => name
  end.

(** [table[module]]: a missing key raises [KeyError]. *)
Definition module_getitem {A} (table : py_module → option A) (module : py_module)
  : py A :=
  match table module with
  | Some a => mret a
  | None => raise (KeyError (module_name module))
  end.

(** [TokenHandler(...).get_access_token()]: the one place the
    constructor turns to the token handler. *)
Definition TokenHandler_get_access_token (req : TokenHandler) : py Token.t :=
  λ s,
  let '(r, w) := get_access_token req (world s) in
  (r, {| heap := heap s; world := w;
         trace := trace s ++ [EvGetAccessToken req] |}).

Definition _DigikeyApiWrapper__init__
    (wrapped_function_name : string) (module : py_module)
    (client_id client_secret storage_path : value) (client_sandbox : bool)
  : py _DigikeyApiWrapper :=
  let self_sandbox := client_sandbox in
  apiname ← module_getitem apinames module;
  apiclass ← module_getitem apiclasses module;
  configuration ←
    (if bool_decide (module = productinformation) then
       mret (new_Configuration ProductInfoConfiguration)
     else if bool_decide (module = ordersupport) then
       mret (new_Configuration OrderDetailsConfiguration)
     else if bool_decide (module = batchproductdetails) then
       mret (new_Configuration BatchSearchConfiguration)
     else raise (ValueError "Invalid module provided"));
  let configuration :=
    Configuration.set_api_key "X-DIGIKEY-Client-Id" client_id configuration in
  if bool_decide (client_id = VNone) || bool_decide (client_secret = VNone) then
    raise (DigikeyError
             "Please provide a valid DIGIKEY_CLIENT_ID and DIGIKEY_CLIENT_SECRET")
  else
    let configuration :=
      Configuration.set_host ("https://api.digikey.com/" +:+ apiname +:+ "/v4")
                             configuration in
    let '(configuration, self_sandbox) :=
      if client_sandbox then
        (Configuration.set_host
           ("https://sandbox-api.digikey.com/" +:+ apiname +:+ "/v4") configuration,
         true)
      else (configuration, self_sandbox) in
    token ← TokenHandler_get_access_token
              {| a_id := client_id; a_secret := client_secret;
                 a_token_storage_path := storage_path; version := 3;
                 th_sandbox := self_sandbox |};
    let configuration :=
      Configuration.set_access_token (Token.access_token token) configuration in
    let api_instance :=
      {| instance_class := apiclass;
         api_client := {| client_module := module;
                          configuration := configuration |} |} in
    mret {| sandbox := self_sandbox;
            _digikeyApiToken := token;
            _api_instance := api_instance;
            authorization := Token.get_authorization token;
            x_digikey_client_id := client_id;
            wrapped_function_name := wrapped_function_name |}.

(** *** _DigikeyApiWrapper.call_api_function (api.py 156-196) *)

Definition getattr (inst : ApiInstance) (name : string) :=
  match getattr_operation inst name with
  | Some func => mret (M := py) func
  | None => raise (AttributeError name)
  end.

(** Calling [func] with positional arguments [args], the keyword
    argument [keyword=a] and the unpacked dict [kwargs]: a keyword given
    twice is a [TypeError] before [func] runs; otherwise [func] runs on
    the outside world. *)
Definition call (inst : ApiInstance) (name : string)
    (func : list value → gmap string value → World → outcome response * World)
    (args : list value) (keyword : string) (a : value)
    (kwargs : gmap string value) : py response :=
  match kwargs !! keyword with
  | Some _ => raise (TypeError "got multiple values for keyword argument")
  | None =>
      λ s,
      let '(r, w) := func args (<[keyword := a]> kwargs) (world s) in
      (r, {| heap := heap s; world := w;
             trace := trace s ++ [EvApiCall inst name args (<[keyword := a]> kwargs)] |})
  end.

Definition call_api_function (self : _DigikeyApiWrapper) (args : list value)
    (api_limits status : value) (kwargs : gmap string value) : py value :=
  try_except
    (func ← getattr (_api_instance self) (wrapped_function_name self);
     api_response ← call (_api_instance self) (wrapped_function_name self) func
                         (args ++ [x_digikey_client_id self])
                         "authorization" (VStr (authorization self)) kwargs;
     _remaining_requests (headers api_response) api_limits;;
     _store_api_statuscode (VInt (status_code api_response)) status;;
     mret (payload api_response))
    (λ e,
      match e with
      | ApiException productinformation e_status =>
          Some (_store_api_statuscode e_status status;; raise e)
      | _ => Some (raise e)
      end).

(** *** DigikeyApi (api.py 199-444) *)

(** [DigikeyApi(client_id, client_secret, storage_path, client_sandbox)]:
    a new object holding the four attributes. *)
Definition DigikeyApi__init__ (client_id client_secret storage_path : value)
    (client_sandbox : bool) : py loc :=
  λ s,
  let self := fresh (dom (heap s)) in
  (Return self,
   set_heap (<[self := ODigikeyApi {| client_id := client_id;
                                      client_secret := client_secret;
                                      storage_path := storage_path;
                                      client_sandbox := client_sandbox |}]> (heap s)) s).

(** Reading [self.client_id], [self.client_secret], [self.storage_path]
    and [self.client_sandbox]. *)
Definition self_attributes (self : loc) : py DigikeyApi :=
  λ s,
  match heap s !! self with
  | Some (ODigikeyApi o) => (Return o, s)
  | _ => (Raise (AttributeError "client_id"), s)
  end.

Definition isinstance_model (x : value) (c : model_class) : py bool :=
  λ s,
  (Return match x with
          | VRef l =>
              match heap s !! l with
              | Some (OModel c') => bool_decide (c' = c)
              | _ => false
              end
          | _ => false
          end, s).

Definition isinstance_str (x : value) : bool :=
  match x with VStr _ => true | _ => false end.

Definition isinstance_int (x : value) : bool :=
  match x with VInt _ => true | _ => false end.

Definition assert (b : bool) : py unit :=
  if b then mret tt else raise AssertionError.

Definition keyword_search (self : loc) (body api_limits status : value) : py value :=
  o ← self_attributes self;
  client ← _DigikeyApiWrapper__init__ "keyword_search_with_http_info"
             productinformation
             (client_id o) (client_secret o) (storage_path o) (client_sandbox o);
  b ← isinstance_model body KeywordRequest;
  assert b;;
  call_api_function client [] api_limits status {[ "body" := body ]}.

Definition product_details (self : loc) (digikey_part_number api_limits status : value)
  : py value :=
  o ← self_attributes self;
  client ← _DigikeyApiWrapper__init__ "product_details_with_http_info"
             productinformation
             (client_id o) (client_secret o) (storage_path o) (client_sandbox o);
  assert (isinstance_str digikey_part_number);;
  call_api_function client [digikey_part_number] api_limits status ∅.

Definition digi_reel_pricing (self : loc)
    (digikey_part_number quantity api_limits status : value) : py value :=
  o ← self_attributes self;
  client ← _DigikeyApiWrapper__init__ "digi_reel_pricing_with_http_info"
             productinformation
             (client_id o) (client_secret o) (storage_path o) (client_sandbox o);
  assert (isinstance_str digikey_part_number);;
  assert (isinstance_int quantity);;
  call_api_function client [digikey_part_number; quantity] api_limits status ∅.

Definition suggested_parts (self : loc) (digikey_part_number api_limits status : value)
  : py value :=
  o ← self_attributes self;
  client ← _DigikeyApiWrapper__init__ "suggested_parts_with_http_info"
             productinformation
             (client_id o) (client_secret o) (storage_path o) (client_sandbox o);
  assert (isinstance_str digikey_part_number);;
  call_api_function client [digikey_part_number] api_limits status ∅.

Definition status_salesorder_id (self : loc) (sales_order_id api_limits status : value)
  : py value :=
  o ← self_attributes self;
  client ← _DigikeyApiWrapper__init__ "order_status_with_http_info"
             ordersupport
             (client_id o) (client_secret o) (storage_path o) (client_sandbox o);
  assert (isinstance_str sales_order_id);;
  call_api_function client [sales_order_id] api_limits status ∅.

Definition salesorder_history (self : loc)
    (start_date end_date api_limits status : value) : py value :=
  o ← self_attributes self;
  client ← _DigikeyApiWrapper__init__ "order_history_with_http_info"
             ordersupport
             (client_id o) (client_secret o) (storage_path o) (client_sandbox o);
  assert (isinstance_str start_date);;
  assert (isinstance_str end_date);;
  call_api_function client [] api_limits status
    (<["start_date" := start_date]> {[ "end_date" := end_date ]}).

Definition batch_product_details (self : loc) (body api_limits status : value)
  : py value :=
  o ← self_attributes self;
  client ← _DigikeyApiWrapper__init__ "batch_product_details_with_http_info"
             batchproductdetails
             (client_id o) (client_secret o) (storage_path o) (client_sandbox o);
  b ← isinstance_model body BatchProductDetailsRequest;
  assert b;;
  call_api_function client [] api_limits status {[ "body" := body ]}.

(** The seven public operations with their own arguments; the two sinks
    are common to all. *)
Inductive public_call :=
| Keyword_search (body : value)
| Product_details (digikey_part_number : value)
| Digi_reel_pricing (digikey_part_number quantity : value)
| Suggested_parts (digikey_part_number : value)
| Status_salesorder_id (sales_order_id : value)
| Salesorder_history (start_date end_date : value)
| Batch_product_details (body : value).

Definition public_operation (c : public_call) (self : loc)
    (api_limits status : value) : py value :=
  match c with
  | Keyword_search body => keyword_search self body api_limits status
  | Product_details pn => product_details self pn api_limits status
  | Digi_reel_pricing pn q => digi_reel_pricing self pn q api_limits status
  | Suggested_parts pn => suggested_parts self pn api_limits status
  | Status_salesorder_id id => status_salesorder_id self id api_limits status
  | Salesorder_history a b => salesorder_history self a b api_limits status
  | Batch_product_details body => batch_product_details self body api_limits status
  end.

End Api.

(** ** Notions the properties are stated with *)

Section Notions.

Context `{Collaborators}.

(** [m] moves any state to one related to it by [R]. *)
Definition preserves (R : relation state) {A} (m : py A) : Prop :=
  ∀ s, R s (m s).2.

(** The only objects written are dicts, and they stay dicts. *)
Definition only_dicts_written (h h' : gmap loc object) : Prop :=
  ∀ l, match h !! l with
       | Some (ODict _) => ∃ d', h' !! l = Some (ODict d')
       | o => h' !! l = o
       end.

Definition heap_frame : relation state :=
  λ s s', only_dicts_written (heap s) (heap s').

(** Nothing left the process. *)
Definition no_io : relation state :=
  λ s s', world s' = world s ∧ trace s' = trace s.

(** The token acquisitions among the events. *)
Definition token_requests (evs : list event) : list TokenHandler :=
  omap (λ ev, match ev with EvGetAccessToken req => Some req | _ => None end) evs.

Definition no_token_request : relation state :=
  λ s s', token_requests (trace s') = token_requests (trace s).

(** The two counters, when both headers are present and both are read by
    [int]. *)
Definition rate_limits (header : gmap string string) : option (Z * Z) :=
  match header !! "X-RateLimit-Limit", header !! "X-RateLimit-Remaining" with
  | Some rate_limit, Some rate_limit_rem =>
      match int_str rate_limit, int_str rate_limit_rem with
      | Some n, Some m => Some (n, m)
      | _, _ => None
      end
  | _, _ => None
  end.

(** The sink after the two assignments. *)
Definition limits_recorded (r : option (Z * Z)) (d : gmap string value)
  : gmap string value :=
  match r with
  | Some (n, m) =>
      <["api_requests_remaining" := VInt m]> (<["api_requests_limit" := VInt n]> d)
  | None =>
      <["api_requests_remaining" := VNone]> (<["api_requests_limit" := VNone]> d)
  end.

(** What the dict at [l] holds once a response with [header] and [code]
    was recorded: the counters if it is the [api_limits] sink, then the code
    if it is the [status] sink. *)
Definition sink_after (header : gmap string string) (code : Z)
    (api_limits status : value) (l : loc) (d : gmap string value)
  : gmap string value :=
  let d1 := if bool_decide (api_limits = VRef l)
            then limits_recorded (rate_limits header) d else d in
  if bool_decide (status = VRef l) then <["code" := VInt code]> d1 else d1.

(** The rate-limit headers are unusable: one is missing, or [int] rejects
    one. *)
Definition malformed_rate_limits (header : gmap string string) : Prop :=
  header !! "X-RateLimit-Limit" = None ∨
  header !! "X-RateLimit-Remaining" = None ∨
  (∃ a, header !! "X-RateLimit-Limit" = Some a ∧ int_str a = None) ∨
  (∃ b, header !! "X-RateLimit-Remaining" = Some b ∧ int_str b = None).

(** The outside world at [w] answers the wrapped operation, called the way
    [call_api_function] calls it, with [r] and moves to [w']. *)
Definition operation_result (self : _DigikeyApiWrapper) (args : list value)
    (kwargs : gmap string value) (w : World) (r : outcome response) (w' : World)
  : Prop :=
  ∃ func,
    getattr_operation (_api_instance self) (wrapped_function_name self) = Some func ∧
    kwargs !! "authorization" = None ∧
    func (args ++ [x_digikey_client_id self])
         (<["authorization" := VStr (authorization self)]> kwargs) w = (r, w').

(** The state once the operation has answered. *)
Definition after_call (self : _DigikeyApiWrapper) (args : list value)
    (kwargs : gmap string value) (w' : World) (s : state) : state :=
  {| heap := heap s; world := w';
     trace := trace s ++
       [EvApiCall (_api_instance self) (wrapped_function_name self)
                  (args ++ [x_digikey_client_id self])
                  (<["authorization" := VStr (authorization self)]> kwargs)] |}.

(** The keyword arguments the constructor gives [TokenHandler]. *)
Definition token_request (client_id client_secret storage_path : value)
    (client_sandbox : bool) : TokenHandler :=
  {| a_id := client_id; a_secret := client_secret;
     a_token_storage_path := storage_path; version := 3;
     th_sandbox := client_sandbox |}.

(** *** Credentials the token handler refuses *)



(** *** The seven public operations as one table *)

(** The generated operation each public method names. *)
Definition operation_name (c : public_call) : string :=
  match c with
  | Keyword_search _ => "keyword_search_with_http_info"
  | Product_details _ => "product_details_with_http_info"
  | Digi_reel_pricing _ _ => "digi_reel_pricing_with_http_info"
  | Suggested_parts _ => "suggested_parts_with_http_info"
  | Status_salesorder_id _ => "order_status_with_http_info"
  | Salesorder_history _ _ => "order_history_with_http_info"
  | Batch_product_details _ => "batch_product_details_with_http_info"
  end.

(** The package it gives the wrapper. *)
Definition operation_module (c : public_call) : py_module :=
  match c with
  | Keyword_search _ | Product_details _ | Digi_reel_pricing _ _
  | Suggested_parts _ => productinformation
  | Status_salesorder_id _ | Salesorder_history _ _ => ordersupport
  | Batch_product_details _ => batchproductdetails
  end.

(** The positional and the keyword arguments it gives
    [call_api_function], the two sinks apart. *)
Definition positional (c : public_call) : list value :=
  match c with
  | Product_details pn | Suggested_parts pn => [pn]
  | Digi_reel_pricing pn q => [pn; q]
  | Status_salesorder_id id => [id]
  | Keyword_search _ | Salesorder_history _ _ | Batch_product_details _ => []
  end.

Definition keywords (c : public_call) : gmap string value :=
  match c with
  | Keyword_search body | Batch_product_details body => {[ "body" := body ]}
  | Salesorder_history a b => <["start_date" := a]> {[ "end_date" := b ]}
  | Product_details _ | Digi_reel_pricing _ _ | Suggested_parts _
  | Status_salesorder_id _ => ∅
  end.

(** [isinstance(x, cls)] for a request model class, in store [h]. *)
Definition is_model (h : gmap loc object) (x : value) (cls : model_class) : bool :=
  match x with
  | VRef l =>
      match h !! l with
      | Some (OModel c') => bool_decide (c' = cls)
      | _ => false
      end
  | _ => false
  end.

(** All the [assert isinstance(...)] of the method hold. *)
Definition arguments_ok (h : gmap loc object) (c : public_call) : bool :=
  match c with
  | Keyword_search body => is_model h body KeywordRequest
  | Product_details pn | Suggested_parts pn => isinstance_str pn
  | Digi_reel_pricing pn q => isinstance_str pn && isinstance_int q
  | Status_salesorder_id id => isinstance_str id
  | Salesorder_history a b => isinstance_str a && isinstance_str b
  | Batch_product_details body => is_model h body BatchProductDetailsRequest
  end.

(** *** Which entries of which dict a call may write *)

(** Entry [k] of the dict at [l] is one the recording steps assign: a
    counter of the [api_limits] sink or the code of the [status] sink. *)
Definition may_write (api_limits status : value) (l : loc) (k : string) : Prop :=
  (api_limits = VRef l ∧ (k = "api_requests_limit" ∨ k = "api_requests_remaining")) ∨
  (status = VRef l ∧ k = "code").

(** From [h] to [h'] dicts stay dicts and differ at most in the entries
    [may_write] allows; every other object is the same. *)
Definition only_sink_entries_written (api_limits status : value)
    (h h' : gmap loc object) : Prop :=
  ∀ l, match h !! l with
       | Some (ODict d) =>
           ∃ d', h' !! l = Some (ODict d') ∧
                 ∀ k, ¬ may_write api_limits status l k → d' !! k = d !! k
       | o => h' !! l = o
       end.

Definition sink_frame (api_limits status : value) : relation state :=
  λ s s', only_sink_entries_written api_limits status (heap s) (heap s').

(** The calls of generated operations among the events. *)
Definition api_calls (evs : list event) : list event :=
  omap (λ ev, match ev with EvApiCall _ _ _ _ => Some ev | _ => None end) evs.

End Notions.

(** ** Scripted collaborators, used to run the code on concrete inputs

    The outside world is reduced to the next answer of the token endpoint
    and the next answer of the API; every generated operation api.py names
    exists on its class and gives the scripted reply.  The token handler
    refuses a missing or empty id or secret itself, with a [ValueError],
    before it turns to the endpoint. *)

Record script := {
  next_token : outcome Token.t;
  next_reply : outcome response
}.

Definition scripted_Configuration (c : config_class) : Configuration.t :=
  {| Configuration.cls := c; Configuration.api_key := ∅;
     Configuration.host := "https://api.digikey.com";
     Configuration.access_token := "" |}.

Definition scripted_get_access_token (req : TokenHandler) (w : script)
  : outcome Token.t * script :=
  if bool_decide (a_id req = VNone ∨ a_id req = VStr "" ∨
                  a_secret req = VNone ∨ a_secret req = VStr "")
  then (Raise (ValueError "CLIENT ID and SECRET must be set"), w)
  else (next_token w, w).

Definition generated_operations (c : api_class) : list string :=
  match c with
  | ProductSearchApi =>
      ["keyword_search_with_http_info"; "product_details_with_http_info";
       "digi_reel_pricing_with_http_info"; "suggested_parts_with_http_info"]
  | OrderDetailsApi =>
      ["order_status_with_http_info"; "order_history_with_http_info"]
  | BatchSearchApi => ["batch_product_details_with_http_info"]
  end.

Definition scripted_getattr (inst : ApiInstance) (name : string)
  : option (list value → gmap string value → script → outcome response * script) :=
  if bool_decide (name ∈ generated_operations (instance_class inst))
  then Some (λ _ _ w, (next_reply w, w))
  else None.

Definition scripted : Collaborators :=
  {| World := script;
     int_str := decimal_int;
     new_Configuration := scripted_Configuration;
     get_access_token := scripted_get_access_token;
     getattr_operation := scripted_getattr |}.

Definition a_token : Token.t :=
  {| Token.access_token := "tok"; Token.get_authorization := "Bearer tok" |}.

(** A token is granted and the API answers [r]. *)
Definition replies (r : outcome response) : script :=
  {| next_token := Return a_token; next_reply := r |}.

Definition a_response (hd : gmap string string) : response :=
  {| payload := VStr "payload"; status_code := 200; headers := hd |}.

Definition start (h : gmap loc object) (w : script) : state (H := scripted) :=
  @Build_state scripted h w [].

Definition a_DigikeyApi : DigikeyApi :=
  {| client_id := VStr "id"; client_secret := VStr "secret";
     storage_path := VStr "/tmp/"; client_sandbox := false |}.

(** An empty dict at 0 (given as [api_limits]), another at 1 (given as
    [status]), a list at 2 and a [DigikeyApi] object at 3. *)
Definition objects : gmap loc object :=
  <[3%nat := ODigikeyApi a_DigikeyApi]>
    (<[2%nat := OList []]> (<[1%nat := ODict ∅]> {[ 0%nat := ODict ∅ ]})).

Definition a_client (module : py_module) (c : api_class) (cfg : config_class)
    (name : string) : _DigikeyApiWrapper :=
  {| sandbox := false;
     _digikeyApiToken := a_token;
     _api_instance :=
       {| instance_class := c;
          api_client := {| client_module := module;
                           configuration := scripted_Configuration cfg |} |};
     authorization := "Bearer tok";
     x_digikey_client_id := VStr "id";
     wrapped_function_name := name |}.

Definition product_details_client : _DigikeyApiWrapper :=
  a_client productinformation ProductSearchApi ProductInfoConfiguration
    "product_details_with_http_info".

Definition order_status_client : _DigikeyApiWrapper :=
  a_client ordersupport OrderDetailsApi OrderDetailsConfiguration
    "order_status_with_http_info".

Definition counted_headers : gmap string string :=
  <["X-RateLimit-Limit" := "120"]> {[ "X-RateLimit-Remaining" := "119" ]}.

(** The token endpoint refuses. *)
Definition refusing : script :=
  {| next_token := Raise (OtherError "invalid_client");
     next_reply := Return (a_response ∅) |}.

(** The store [objects] with, at 4, a [DigikeyApi] object made without a
    secret. *)
Definition objects_without_secret : gmap loc object :=
  <[4%nat := ODigikeyApi {| client_id := VStr "id"; client_secret := VNone;
                            storage_path := VStr "/tmp/";
                            client_sandbox := false |}]> objects.

(** ** Properties *)

Section Properties.

Context `{Collaborators}.

(** Unfolding the plumbing of [py]. *)
Ltac py_unfold :=
  unfold try_except, getitem, int, not_None_and_isinstance_dict, setitem,
    getattr, call, assert, raise, mbind, py_bind, mret, py_ret in *.

(** *** The two recording steps, one at a time *)

Lemma is_dict_ref (h : gmap loc object) (l : loc) (d : gmap string value) :
  h !! l = Some (ODict d) → is_dict h (VRef l) = true.
Proof. intros Hl. unfold is_dict. rewrite Hl. reflexivity. Qed.

Lemma is_dict_inv (h : gmap loc object) (x : value) :
  is_dict h x = true → ∃ l d, x = VRef l ∧ h !! l = Some (ODict d).
Proof.
  unfold is_dict. destruct x as [| | |l]; simpl; try discriminate.
  destruct (h !! l) as [[d| | |]|] eqn:Hl; try discriminate.
  intros _. eauto.
Qed.

(** On a dict sink [_remaining_requests] always returns, and the sink holds
    the pair read from the headers, or [None] twice. *)
Lemma _remaining_requests_dict (header : gmap string string) (l : loc)
    (d : gmap string value) (s : state) :
  heap s !! l = Some (ODict d) →
  _remaining_requests header (VRef l) s =
  (Return tt,
   set_heap (<[l := ODict (limits_recorded (rate_limits header) d)]> (heap s)) s).
Proof.
  intros Hl. unfold _remaining_requests, rate_limits, limits_recorded.
  py_unfold. unfold is_dict, set_heap.
  destruct (header !! "X-RateLimit-Limit") as [a|];
    [destruct (header !! "X-RateLimit-Remaining") as [b|];
     [destruct (int_str a) as [n|]; [destruct (int_str b) as [m|]|]|]|];
    repeat (simpl; rewrite ?Hl, ?lookup_insert_eq, ?insert_insert_eq);
    reflexivity.
Qed.

Lemma _remaining_requests_no_dict (header : gmap string string) (x : value)
    (s : state) :
  is_dict (heap s) x = false →
  _remaining_requests header x s = (Return tt, s).
Proof.
  intros Hx. unfold _remaining_requests. py_unfold.
  destruct (header !! "X-RateLimit-Limit") as [a|];
    [destruct (header !! "X-RateLimit-Remaining") as [b|]|];
    simpl; rewrite Hx; reflexivity.
Qed.

Lemma _store_api_statuscode_dict (n : Z) (l : loc) (d : gmap string value)
    (s : state) :
  heap s !! l = Some (ODict d) →
  _store_api_statuscode (VInt n) (VRef l) s =
  (Return tt, set_heap (<[l := ODict (<["code" := VInt n]> d)]> (heap s)) s).
Proof.
  intros Hl. unfold _store_api_statuscode. py_unfold. unfold is_dict.
  simpl. rewrite Hl. simpl. rewrite Hl. reflexivity.
Qed.

Lemma _store_api_statuscode_no_dict (statuscode x : value) (s : state) :
  is_dict (heap s) x = false →
  _store_api_statuscode statuscode x s = (Return tt, s).
Proof.
  intros Hx. unfold _store_api_statuscode. py_unfold.
  simpl. rewrite Hx. reflexivity.
Qed.

(** *** Relations every step of a computation keeps *)

Section Preserves.

Context (R : relation state) `{!Reflexive R, !Transitive R}.

Lemma preserves_ret {A} (a : A) : preserves R (mret a).
Proof. intros s. simpl. reflexivity. Qed.

Lemma preserves_raise {A} (e : exn) : preserves R (raise (A := A) e).
Proof. intros s. simpl. reflexivity. Qed.

Lemma preserves_bind {A B} (m : py A) (k : A → py B) :
  preserves R m → (∀ a, preserves R (k a)) → preserves R (m ≫= k).
Proof.
  intros Hm Hk s. specialize (Hm s). unfold mbind, py_bind.
  destruct (m s) as [[a|e] s1]; simpl in *; [|exact Hm].
  etransitivity; [exact Hm | apply Hk].
Qed.

Lemma preserves_try_except {A} (body : py A) (handler : exn → option (py A)) :
  preserves R body →
  (∀ e h, handler e = Some h → preserves R h) →
  preserves R (try_except body handler).
Proof.
  intros Hb Hh s. specialize (Hb s). unfold try_except.
  destruct (body s) as [[a|e] s1]; simpl in *; [exact Hb|].
  destruct (handler e) as [h|] eqn:He; [|exact Hb].
  etransitivity; [exact Hb | exact (Hh e h He s1)].
Qed.

(** A step that leaves the state alone. *)
Lemma preserves_pure {A} (m : py A) :
  (∀ s, (m s).2 = s) → preserves R m.
Proof. intros Hm s. rewrite Hm. reflexivity. Qed.

End Preserves.

#[local] Instance heap_frame_refl : Reflexive heap_frame.
Proof.
  intros s l. destruct (heap s !! l) as [[d| | |]|] eqn:Hl; eauto.
Qed.

#[local] Instance heap_frame_trans : Transitive heap_frame.
Proof.
  intros s1 s2 s3 H12 H23 l. specialize (H12 l).
  destruct (heap s1 !! l) as [[d| | |]|] eqn:Hl;
    try (specialize (H23 l); rewrite H12 in H23; exact H23).
  destruct H12 as [d2 H2]. specialize (H23 l). rewrite H2 in H23. exact H23.
Qed.

#[local] Instance no_io_refl : Reflexive no_io.
Proof. by intros s. Qed.

#[local] Instance no_io_trans : Transitive no_io.
Proof. intros s1 s2 s3 [? ?] [? ?]. split; congruence. Qed.

#[local] Instance no_token_request_refl : Reflexive no_token_request.
Proof. by intros s. Qed.

#[local] Instance no_token_request_trans : Transitive no_token_request.
Proof. intros s1 s2 s3 ? ?. unfold no_token_request in *. congruence. Qed.

Lemma no_io_no_token_request (s s' : state) : no_io s s' → no_token_request s s'.
Proof. intros [_ Ht]. unfold no_token_request. by rewrite Ht. Qed.

Lemma only_dicts_written_is_dict (h h' : gmap loc object) (x : value) :
  only_dicts_written h h' → is_dict h' x = is_dict h x.
Proof.
  intros Hw. unfold is_dict. destruct x as [| | |l]; try reflexivity.
  specialize (Hw l). simpl.
  destruct (h !! l) as [[d| | |]|]; try (rewrite Hw; reflexivity).
  destruct Hw as [d' ->]. reflexivity.
Qed.

Lemma only_dicts_written_other (h h' : gmap loc object) (l : loc) (o : object) :
  only_dicts_written h h' → h !! l = Some o → (∀ d, o ≠ ODict d) → h' !! l = Some o.
Proof.
  intros Hw Hl Ho. specialize (Hw l). rewrite Hl in Hw.
  destruct o as [d| | |]; try exact Hw. by destruct (Ho d).
Qed.

Lemma setitem_heap_frame (x : value) (k : string) (v : value) :
  preserves heap_frame (setitem x k v).
Proof.
  intros s. unfold setitem.
  destruct x as [| | |l]; try reflexivity.
  destruct (heap s !! l) as [[d| | |]|] eqn:Hl; try reflexivity.
  intros l'. simpl. destruct (decide (l' = l)) as [->|Hne].
  - rewrite Hl, lookup_insert_eq. eauto.
  - rewrite lookup_insert_ne by done.
    destruct (heap s !! l') as [[d'| | |]|]; eauto.
Qed.

Lemma setitem_no_io (x : value) (k : string) (v : value) :
  preserves no_io (setitem x k v).
Proof.
  intros s. unfold setitem.
  destruct x as [| | |l]; try reflexivity.
  destruct (heap s !! l) as [[d| | |]|]; by split.
Qed.

Lemma not_None_and_isinstance_dict_pure (x : value) (s : state) :
  (not_None_and_isinstance_dict x s).2 = s.
Proof. reflexivity. Qed.

Lemma self_attributes_pure (self : loc) (s : state) :
  (self_attributes self s).2 = s.
Proof.
  unfold self_attributes. by destruct (heap s !! self) as [[| | |]|].
Qed.

Lemma isinstance_model_pure (x : value) (c : model_class) (s : state) :
  (isinstance_model x c s).2 = s.
Proof. reflexivity. Qed.

Lemma TokenHandler_get_access_token_heap (req : TokenHandler) (s : state) :
  heap (TokenHandler_get_access_token req s).2 = heap s.
Proof.
  unfold TokenHandler_get_access_token.
  by destruct (get_access_token req (world s)).
Qed.

Lemma TokenHandler_get_access_token_heap_frame (req : TokenHandler) :
  preserves heap_frame (TokenHandler_get_access_token req).
Proof.
  intros s. unfold heap_frame.
  rewrite TokenHandler_get_access_token_heap. apply heap_frame_refl.
Qed.

Create HintDb preserves.

#[local] Hint Resolve setitem_heap_frame setitem_no_io
  TokenHandler_get_access_token_heap_frame : preserves.
#[local] Hint Extern 1 (preserves _ (not_None_and_isinstance_dict _)) =>
  apply preserves_pure; [try apply _ ..| apply not_None_and_isinstance_dict_pure]
  : preserves.
#[local] Hint Extern 1 (preserves _ (self_attributes _)) =>
  apply preserves_pure; [try apply _ ..| apply self_attributes_pure] : preserves.
#[local] Hint Extern 1 (preserves _ (isinstance_model _ _)) =>
  apply preserves_pure; [try apply _ ..| apply isinstance_model_pure] : preserves.

(** Follows the shape of a computation: binds, handlers and branches. *)
Ltac preserves_steps :=
  repeat first
    [ solve [auto with preserves]
    | progress intros
    | progress simplify_eq/=
    | apply preserves_ret
    | apply preserves_raise
    | apply preserves_bind
    | apply preserves_try_except
    | progress unfold getitem, int, getattr, assert, module_getitem
    | match goal with
      | |- Reflexive _ => apply _
      | |- Transitive _ => apply _
      | H : match ?e with _ => _ end = Some _ |- _ => destruct e
      | |- preserves _ (if ?b then _ else _) => destruct b
      | |- preserves _ (match ?x with _ => _ end) => destruct x
      | |- preserves _ (let '(_, _) := ?x in _) => destruct x
      end ].

Lemma _remaining_requests_heap_frame (header : gmap string string) (x : value) :
  preserves heap_frame (_remaining_requests header x).
Proof. unfold _remaining_requests. preserves_steps. Qed.

Lemma _remaining_requests_no_io (header : gmap string string) (x : value) :
  preserves no_io (_remaining_requests header x).
Proof. unfold _remaining_requests. preserves_steps. Qed.

Lemma _store_api_statuscode_heap_frame (statuscode x : value) :
  preserves heap_frame (_store_api_statuscode statuscode x).
Proof. unfold _store_api_statuscode. preserves_steps. Qed.

Lemma _store_api_statuscode_no_io (statuscode x : value) :
  preserves no_io (_store_api_statuscode statuscode x).
Proof. unfold _store_api_statuscode. preserves_steps. Qed.

#[local] Hint Resolve _remaining_requests_heap_frame _remaining_requests_no_io
  _store_api_statuscode_heap_frame _store_api_statuscode_no_io : preserves.

(** *** Every dict after the two recording steps *)

Lemma _remaining_requests_lookup (header : gmap string string) (x : value)
    (s : state) (l : loc) (d : gmap string value) :
  heap s !! l = Some (ODict d) →
  heap (_remaining_requests header x s).2 !! l =
  Some (ODict (if bool_decide (x = VRef l)
               then limits_recorded (rate_limits header) d else d)).
Proof.
  intros Hl. destruct (is_dict (heap s) x) eqn:Hx.
  - apply is_dict_inv in Hx as (l' & d' & -> & Hl').
    rewrite (_remaining_requests_dict _ _ _ _ Hl'). simpl.
    destruct (decide (l' = l)) as [->|Hne].
    + rewrite lookup_insert_eq, bool_decide_true by done. congruence.
    + rewrite lookup_insert_ne, bool_decide_false by congruence. done.
  - rewrite _remaining_requests_no_dict by done. simpl.
    rewrite bool_decide_false; [done|].
    intros ->. by rewrite (is_dict_ref _ _ _ Hl) in Hx.
Qed.

Lemma _store_api_statuscode_lookup (n : Z) (x : value) (s : state) (l : loc)
    (d : gmap string value) :
  heap s !! l = Some (ODict d) →
  heap (_store_api_statuscode (VInt n) x s).2 !! l =
  Some (ODict (if bool_decide (x = VRef l) then <["code" := VInt n]> d else d)).
Proof.
  intros Hl. destruct (is_dict (heap s) x) eqn:Hx.
  - apply is_dict_inv in Hx as (l' & d' & -> & Hl').
    rewrite (_store_api_statuscode_dict _ _ _ _ Hl'). simpl.
    destruct (decide (l' = l)) as [->|Hne].
    + rewrite lookup_insert_eq, bool_decide_true by done. congruence.
    + rewrite lookup_insert_ne, bool_decide_false by congruence. done.
  - rewrite _store_api_statuscode_no_dict by done. simpl.
    rewrite bool_decide_false; [done|].
    intros ->. by rewrite (is_dict_ref _ _ _ Hl) in Hx.
Qed.

Lemma metadata_recorded (header : gmap string string) (code : Z)
    (api_limits status : value) (s : state) :
  let s' := (_store_api_statuscode (VInt code) status
               (_remaining_requests header api_limits s).2).2 in
  world s' = world s ∧ trace s' = trace s ∧
  ∀ l d, heap s !! l = Some (ODict d) →
         heap s' !! l = Some (ODict (sink_after header code api_limits status l d)).
Proof.
  intros s'.
  assert (no_io s s') as [Hw Ht].
  { etransitivity; [apply _remaining_requests_no_io|].
    apply _store_api_statuscode_no_io. }
  split; [done|]. split; [done|]. intros l d Hl. subst s'.
  apply (_remaining_requests_lookup header api_limits) in Hl.
  apply (_store_api_statuscode_lookup code status) in Hl.
  exact Hl.
Qed.

Lemma preserves_weaken (R R' : relation state) {A} (m : py A) :
  (∀ s s', R s s' → R' s s') → preserves R m → preserves R' m.
Proof. intros HR Hm s. apply HR, Hm. Qed.

Lemma heap_frame_same_heap (s s' : state) : heap s' = heap s → heap_frame s s'.
Proof. intros Hh l. rewrite Hh. destruct (heap s !! l) as [[d| | |]|]; eauto. Qed.

Lemma call_heap_frame (inst : ApiInstance) (name : string)
    (func : list value → gmap string value → World → outcome response * World)
    (args : list value) (keyword : string) (a : value)
    (kwargs : gmap string value) :
  preserves heap_frame (call inst name func args keyword a kwargs).
Proof.
  intros s. apply heap_frame_same_heap. unfold call.
  destruct (kwargs !! keyword); [reflexivity|].
  by destruct (func _ _ _).
Qed.

Lemma call_no_token_request (inst : ApiInstance) (name : string)
    (func : list value → gmap string value → World → outcome response * World)
    (args : list value) (keyword : string) (a : value)
    (kwargs : gmap string value) :
  preserves no_token_request (call inst name func args keyword a kwargs).
Proof.
  intros s. unfold call, no_token_request.
  destruct (kwargs !! keyword); [reflexivity|].
  destruct (func _ _ _). simpl. unfold token_requests.
  rewrite omap_app. simpl. apply app_nil_r.
Qed.

Lemma _remaining_requests_no_token_request (header : gmap string string)
    (x : value) :
  preserves no_token_request (_remaining_requests header x).
Proof.
  apply (preserves_weaken no_io); [apply no_io_no_token_request|].
  apply _remaining_requests_no_io.
Qed.

Lemma _store_api_statuscode_no_token_request (statuscode x : value) :
  preserves no_token_request (_store_api_statuscode statuscode x).
Proof.
  apply (preserves_weaken no_io); [apply no_io_no_token_request|].
  apply _store_api_statuscode_no_io.
Qed.

#[local] Hint Resolve call_heap_frame call_no_token_request
  _remaining_requests_no_token_request _store_api_statuscode_no_token_request
  : preserves.

Lemma call_api_function_heap_frame (self : _DigikeyApiWrapper) (args : list value)
    (api_limits status : value) (kwargs : gmap string value) :
  preserves heap_frame (call_api_function self args api_limits status kwargs).
Proof. unfold call_api_function. preserves_steps. Qed.

Lemma call_api_function_no_token_request (self : _DigikeyApiWrapper)
    (args : list value) (api_limits status : value) (kwargs : gmap string value) :
  preserves no_token_request (call_api_function self args api_limits status kwargs).
Proof. unfold call_api_function. preserves_steps. Qed.

Lemma _DigikeyApiWrapper__init__heap_frame (wrapped_function_name : string)
    (module : py_module) (client_id client_secret storage_path : value)
    (client_sandbox : bool) :
  preserves heap_frame
    (_DigikeyApiWrapper__init__ wrapped_function_name module
       client_id client_secret storage_path client_sandbox).
Proof. unfold _DigikeyApiWrapper__init__. preserves_steps. Qed.

#[local] Hint Resolve call_api_function_heap_frame
  call_api_function_no_token_request _DigikeyApiWrapper__init__heap_frame
  : preserves.

(** *** One dispatch *)

Lemma _remaining_requests_returns (header : gmap string string) (x : value)
    (s : state) :
  (_remaining_requests header x s).1 = Return tt.
Proof.
  destruct (is_dict (heap s) x) eqn:Hx.
  - apply is_dict_inv in Hx as (l & d & -> & Hl).
    by rewrite (_remaining_requests_dict _ _ _ _ Hl).
  - by rewrite _remaining_requests_no_dict.
Qed.

Lemma _store_api_statuscode_returns (n : Z) (x : value) (s : state) :
  (_store_api_statuscode (VInt n) x s).1 = Return tt.
Proof.
  destruct (is_dict (heap s) x) eqn:Hx.
  - apply is_dict_inv in Hx as (l & d & -> & Hl).
    by rewrite (_store_api_statuscode_dict _ _ _ _ Hl).
  - by rewrite _store_api_statuscode_no_dict.
Qed.

(** A dispatch whose operation returns: the payload comes back, after the
    two recording steps ran in order on the state the call left. *)
Lemma call_api_function_returns (self : _DigikeyApiWrapper) (args : list value)
    (api_limits status : value) (kwargs : gmap string value) (s : state)
    (resp : response) (w' : World) :
  operation_result self args kwargs (world s) (Return resp) w' →
  call_api_function self args api_limits status kwargs s =
  (Return (payload resp),
   (_store_api_statuscode (VInt (status_code resp)) status
      (_remaining_requests (headers resp) api_limits
         (after_call self args kwargs w' s)).2).2).
Proof.
  intros (func & Hget & Hkw & Hfunc).
  unfold call_api_function, try_except, getattr, call, mbind, py_bind.
  rewrite Hget, Hkw. cbn [mret py_ret]. rewrite Hfunc.
  fold (after_call self args kwargs w' s).
  pose proof (_remaining_requests_returns (headers resp) api_limits
                (after_call self args kwargs w' s)) as H1.
  destruct (_remaining_requests _ _ _) as [r1 s1]. cbn [fst snd] in *. subst r1.
  pose proof (_store_api_statuscode_returns (status_code resp) status s1) as H2.
  destruct (_store_api_statuscode _ _ _) as [r2 s2]. cbn [fst snd] in *. subst r2.
  reflexivity.
Qed.

(** A dispatch whose operation raises: the handler of the first matching
    [except] clause runs on the state the call left. *)
Lemma call_api_function_raises (self : _DigikeyApiWrapper) (args : list value)
    (api_limits status : value) (kwargs : gmap string value) (s : state)
    (e : exn) (w' : World) :
  operation_result self args kwargs (world s) (Raise e) w' →
  call_api_function self args api_limits status kwargs s =
  match e with
  | ApiException productinformation e_status =>
      (_store_api_statuscode e_status status;; raise e)
        (after_call self args kwargs w' s)
  | _ => (Raise e, after_call self args kwargs w' s)
  end.
Proof.
  intros (func & Hget & Hkw & Hfunc).
  unfold call_api_function, try_except, getattr, call, mbind, py_bind.
  rewrite Hget, Hkw. cbn [mret py_ret]. rewrite Hfunc.
  fold (after_call self args kwargs w' s).
  destruct e as [| | | | | |[]|]; reflexivity.
Qed.

(** *** The dispatch returns the payload and records the status *)

(** C2.  When the wrapped operation returns its 3-tuple, [call_api_function]
    returns the first element.  The one call it made carried the caller's
    positional arguments followed by the client id, and the caller's keyword
    arguments plus [authorization]; removing [authorization] gives back
    exactly the caller's keywords.  A dict [status] sink then holds the
    status code under [code], the rest of it as it was (with the counters
    added first when the same dict is also the [api_limits] sink). *)
Theorem call_api_function_returns_payload (self : _DigikeyApiWrapper)
    (args : list value) (api_limits status : value)
    (kwargs : gmap string value) (s : state) (resp : response) (w' : World) :
  operation_result self args kwargs (world s) (Return resp) w' →
  ∃ s',
    call_api_function self args api_limits status kwargs s
      = (Return (payload resp), s') ∧
    world s' = w' ∧
    trace s' = trace s ++
      [EvApiCall (_api_instance self) (wrapped_function_name self)
                 (args ++ [x_digikey_client_id self])
                 (<["authorization" := VStr (authorization self)]> kwargs)] ∧
    delete "authorization"
      (<["authorization" := VStr (authorization self)]> kwargs) = kwargs ∧
    ∀ l d, status = VRef l → heap s !! l = Some (ODict d) →
      ∃ d1, heap s' !! l = Some (ODict (<["code" := VInt (status_code resp)]> d1)) ∧
            (api_limits ≠ status → d1 = d).
Proof.
  intros Hop. rewrite (call_api_function_returns _ _ _ _ _ _ _ _ Hop).
  eexists. split; [reflexivity|].
  destruct (metadata_recorded (headers resp) (status_code resp) api_limits status
              (after_call self args kwargs w' s)) as (Hw & Ht & Hh).
  split; [exact Hw|]. split; [exact Ht|].
  destruct Hop as (_ & _ & Hkw & _).
  split; [by apply delete_insert_id|].
  intros l d -> Hl. rewrite (Hh l d Hl). unfold sink_after.
  rewrite (bool_decide_true (VRef l = VRef l)) by done.
  eexists. split; [reflexivity|].
  intros Hne. by rewrite bool_decide_false.
Qed.

(** *** Rate-limit counters *)

(** C3.  When both rate-limit headers are present and [int] reads both, a
    successful call leaves the two integers in a dict [api_limits] sink
    under [api_requests_limit] and [api_requests_remaining]; the sink is
    otherwise as it was, apart from [code] when the same dict is also the
    [status] sink. *)
Theorem call_api_function_records_rate_limits (self : _DigikeyApiWrapper)
    (args : list value) (l : loc) (d : gmap string value) (status : value)
    (kwargs : gmap string value) (s : state) (resp : response) (w' : World)
    (a b : string) (n m : Z) :
  operation_result self args kwargs (world s) (Return resp) w' →
  heap s !! l = Some (ODict d) →
  headers resp !! "X-RateLimit-Limit" = Some a →
  headers resp !! "X-RateLimit-Remaining" = Some b →
  int_str a = Some n →
  int_str b = Some m →
  ∃ s' d',
    call_api_function self args (VRef l) status kwargs s
      = (Return (payload resp), s') ∧
    heap s' !! l = Some (ODict d') ∧
    d' !! "api_requests_limit" = Some (VInt n) ∧
    d' !! "api_requests_remaining" = Some (VInt m) ∧
    (status ≠ VRef l →
     d' = <["api_requests_remaining" := VInt m]> (<["api_requests_limit" := VInt n]> d)).
Proof.
  intros Hop Hl Ha Hb Hn Hm.
  rewrite (call_api_function_returns _ _ _ _ _ _ _ _ Hop).
  destruct (metadata_recorded (headers resp) (status_code resp) (VRef l) status
              (after_call self args kwargs w' s)) as (_ & _ & Hh).
  do 2 eexists. split; [reflexivity|]. split; [exact (Hh l d Hl)|].
  unfold sink_after, rate_limits. rewrite Ha, Hb, Hn, Hm.
  rewrite (bool_decide_true (VRef l = VRef l)) by done. simpl.
  case_bool_decide; simplify_map_eq; done.
Qed.

Lemma malformed_rate_limits_None (header : gmap string string) :
  malformed_rate_limits header ↔ rate_limits header = None.
Proof.
  unfold malformed_rate_limits, rate_limits. split.
  - intros [->|[Hb|[(a & -> & Ha)|(b & Hb & Hn)]]]; [done| | |].
    + rewrite Hb. by destruct (header !! "X-RateLimit-Limit").
    + rewrite Ha. by destruct (header !! "X-RateLimit-Remaining").
    + rewrite Hb, Hn. destruct (header !! "X-RateLimit-Limit") as [a|]; [|done].
      by destruct (int_str a).
  - destruct (header !! "X-RateLimit-Limit") as [a|]; [|by left].
    destruct (header !! "X-RateLimit-Remaining") as [b|]; [|by right; left].
    destruct (int_str a) eqn:Ha; [|by right; right; left; eauto].
    destruct (int_str b) eqn:Hb; [done|].
    intros _. right; right; right. eauto.
Qed.

(** C4.  When a rate-limit header is missing or is not read by [int], the
    call still returns the payload, and a dict [api_limits] sink holds
    [None] under both [api_requests_limit] and [api_requests_remaining]. *)
Theorem call_api_function_malformed_rate_limits (self : _DigikeyApiWrapper)
    (args : list value) (l : loc) (d : gmap string value) (status : value)
    (kwargs : gmap string value) (s : state) (resp : response) (w' : World) :
  operation_result self args kwargs (world s) (Return resp) w' →
  heap s !! l = Some (ODict d) →
  malformed_rate_limits (headers resp) →
  ∃ s' d',
    call_api_function self args (VRef l) status kwargs s
      = (Return (payload resp), s') ∧
    heap s' !! l = Some (ODict d') ∧
    d' !! "api_requests_limit" = Some VNone ∧
    d' !! "api_requests_remaining" = Some VNone.
Proof.
  intros Hop Hl Hbad. apply malformed_rate_limits_None in Hbad.
  rewrite (call_api_function_returns _ _ _ _ _ _ _ _ Hop).
  destruct (metadata_recorded (headers resp) (status_code resp) (VRef l) status
              (after_call self args kwargs w' s)) as (_ & _ & Hh).
  do 2 eexists. split; [reflexivity|]. split; [exact (Hh l d Hl)|].
  unfold sink_after. rewrite Hbad.
  rewrite (bool_decide_true (VRef l = VRef l)) by done. simpl.
  case_bool_decide; simplify_map_eq; done.
Qed.

(** C10.  On any headers and any dict sink, [_remaining_requests] returns,
    the sink then has both keys, and the two values are integers together
    (the pair read from the headers) or [None] together. *)
Theorem _remaining_requests_coherent (header : gmap string string) (l : loc)
    (d : gmap string value) (s : state) :
  heap s !! l = Some (ODict d) →
  ∃ s' d',
    _remaining_requests header (VRef l) s = (Return tt, s') ∧
    heap s' !! l = Some (ODict d') ∧
    ((∃ n m, rate_limits header = Some (n, m) ∧
             d' !! "api_requests_limit" = Some (VInt n) ∧
             d' !! "api_requests_remaining" = Some (VInt m)) ∨
     (rate_limits header = None ∧
      d' !! "api_requests_limit" = Some VNone ∧
      d' !! "api_requests_remaining" = Some VNone)).
Proof.
  intros Hl. rewrite (_remaining_requests_dict _ _ _ _ Hl).
  do 2 eexists. split; [reflexivity|]. simpl.
  split; [apply lookup_insert_eq|].
  destruct (rate_limits header) as [[n m]|]; [left; exists n, m|right];
    simpl; simplify_map_eq; done.
Qed.

(** *** API errors *)

(** The sibling path: an [ApiException] of the productinformation package
    with an integer status is recorded in a dict [status] sink before the
    same exception is raised again. *)
Lemma call_api_function_ProductInfoApiException (self : _DigikeyApiWrapper)
    (args : list value) (api_limits : value) (l : loc) (d : gmap string value)
    (kwargs : gmap string value) (s : state) (code : Z) (w' : World) :
  operation_result self args kwargs (world s)
    (Raise (ApiException productinformation (VInt code))) w' →
  heap s !! l = Some (ODict d) →
  ∃ s',
    call_api_function self args api_limits (VRef l) kwargs s
      = (Raise (ApiException productinformation (VInt code)), s') ∧
    heap s' !! l = Some (ODict (<["code" := VInt code]> d)).
Proof.
  intros Hop Hl. rewrite (call_api_function_raises _ _ _ _ _ _ _ _ Hop).
  unfold mbind, py_bind.
  rewrite (_store_api_statuscode_dict code l d (after_call self args kwargs w' s))
    by exact Hl.
  eexists. split; [reflexivity|]. simpl. apply lookup_insert_eq.
Qed.

(** C1.  Where the code departs from the specification: an [ApiException] of any
    package other than productinformation, status code included, is raised
    again unchanged, and no object of the store is written: the [status]
    sink does not receive the code. *)
Theorem call_api_function_other_ApiException_not_recorded
    (self : _DigikeyApiWrapper) (args : list value) (api_limits status : value)
    (kwargs : gmap string value) (s : state) (pkg : py_module) (code : Z)
    (w' : World) :
  pkg ≠ productinformation →
  operation_result self args kwargs (world s)
    (Raise (ApiException pkg (VInt code))) w' →
  ∃ s',
    call_api_function self args api_limits status kwargs s
      = (Raise (ApiException pkg (VInt code)), s') ∧
    heap s' = heap s.
Proof.
  intros Hpkg Hop. rewrite (call_api_function_raises _ _ _ _ _ _ _ _ Hop).
  destruct pkg; try done; (eexists; split; [reflexivity|reflexivity]).
Qed.

(** *** Construction of the wrapper *)

(** C7.  Where the code departs from the specification: for a module that
    is not one of the three packages, construction stops at
    [apinames[module]] with a [KeyError] on that module, and so never reaches
    the branch that raises [ValueError("Invalid module provided")]; the
    state is untouched, so no token was asked for and nothing left the
    process. *)
Theorem _DigikeyApiWrapper__init__unknown_module (wrapped_function_name : string)
    (module : py_module) (client_id client_secret storage_path : value)
    (client_sandbox : bool) (s : state) :
  module ∉ [productinformation; ordersupport; batchproductdetails] →
  let r := _DigikeyApiWrapper__init__ wrapped_function_name module
             client_id client_secret storage_path client_sandbox s in
  r.1 = Raise (KeyError (module_name module)) ∧
  r.1 ≠ Raise (ValueError "Invalid module provided") ∧
  r.2 = s.
Proof.
  intros Hm r. subst r.
  destruct module as [| | |name]; try (exfalso; apply Hm; set_solver).
  simpl. split; [reflexivity|]. split; [discriminate|reflexivity].
Qed.

(** The [ValueError] branch is never taken: whenever construction raises
    without having asked for a token, the exception is another one. *)
Lemma _DigikeyApiWrapper__init__never_Invalid_module
    (wrapped_function_name : string) (module : py_module)
    (client_id client_secret storage_path : value) (client_sandbox : bool)
    (s : state) :
  let r := _DigikeyApiWrapper__init__ wrapped_function_name module
             client_id client_secret storage_path client_sandbox s in
  trace r.2 = trace s → r.1 ≠ Raise (ValueError "Invalid module provided").
Proof.
  unfold _DigikeyApiWrapper__init__, module_getitem, TokenHandler_get_access_token.
  py_unfold.
  destruct module; simpl; try discriminate;
    (destruct (bool_decide (client_id = VNone) || bool_decide (client_secret = VNone));
     [discriminate|]);
    destruct client_sandbox; simpl;
    destruct (get_access_token _ _) as [[tok|e] w]; simpl;
    intros Ht; apply (f_equal length) in Ht; rewrite length_app in Ht;
    simpl in Ht; lia.
Qed.

(** The guard of the constructor: a [None] credential is refused on the
    spot. *)
Lemma _DigikeyApiWrapper__init__refuses_None
    (wrapped_function_name : string) (module : py_module)
    (client_id client_secret storage_path : value) (client_sandbox : bool)
    (s : state) :
  is_Some (apinames module) →
  client_id = VNone ∨ client_secret = VNone →
  _DigikeyApiWrapper__init__ wrapped_function_name module
    client_id client_secret storage_path client_sandbox s
  = (Raise (DigikeyError
              "Please provide a valid DIGIKEY_CLIENT_ID and DIGIKEY_CLIENT_SECRET"),
     s).
Proof.
  intros Hm Hnone.
  assert (bool_decide (client_id = VNone) || bool_decide (client_secret = VNone)
          = true) as Hb.
  { destruct Hnone as [->| ->]; [done|]. apply orb_true_r. }
  unfold _DigikeyApiWrapper__init__, module_getitem. py_unfold.
  destruct module; simpl; rewrite ?Hb; try reflexivity.
  by destruct Hm.
Qed.

(** With both credentials given, construction asks for a token with the
    caller's credentials, storage path and sandbox flag; a refusal of the
    token handler is the outcome of the construction. *)
Lemma _DigikeyApiWrapper__init__acquires_token
    (wrapped_function_name : string) (module : py_module)
    (client_id client_secret storage_path : value) (client_sandbox : bool)
    (s : state) :
  is_Some (apinames module) →
  client_id ≠ VNone → client_secret ≠ VNone →
  let req := token_request client_id client_secret storage_path client_sandbox in
  let r := _DigikeyApiWrapper__init__ wrapped_function_name module
             client_id client_secret storage_path client_sandbox s in
  heap r.2 = heap s ∧
  world r.2 = (get_access_token req (world s)).2 ∧
  trace r.2 = trace s ++ [EvGetAccessToken req] ∧
  match (get_access_token req (world s)).1 with
  | Return token =>
      ∃ client, r.1 = Return client ∧
        _digikeyApiToken client = token ∧
        authorization client = Token.get_authorization token ∧
        x_digikey_client_id client = client_id ∧
        sandbox client = client_sandbox
  | Raise e => r.1 = Raise e
  end.
Proof.
  intros Hm Hid Hsecret req r. subst r req.
  unfold _DigikeyApiWrapper__init__, module_getitem, TokenHandler_get_access_token,
    token_request.
  py_unfold.
  destruct module; simpl; try (by destruct Hm);
    rewrite !bool_decide_false by done; simpl;
    destruct client_sandbox; simpl;
    destruct (get_access_token _ _) as [[tok|e] w]; simpl; eauto 10.
Qed.


(** C5.  For each of the three packages, with both credentials given and a
    token granted, the constructed client is configured with the host
    [https://api.digikey.com/<segment>/v4], or
    [https://sandbox-api.digikey.com/<segment>/v4] when [client_sandbox] is
    set, the segments being [products], [OrderDetails] and [BatchSearch]. *)
Theorem _DigikeyApiWrapper__init__host (wrapped_function_name : string)
    (module : py_module) (segment : string)
    (client_id client_secret storage_path : value) (client_sandbox : bool)
    (s : state) (token : Token.t) (w' : World) :
  (module, segment) ∈ [(productinformation, "products");
                       (ordersupport, "OrderDetails");
                       (batchproductdetails, "BatchSearch")] →
  client_id ≠ VNone → client_secret ≠ VNone →
  get_access_token
    (token_request client_id client_secret storage_path client_sandbox) (world s)
  = (Return token, w') →
  ∃ client s',
    _DigikeyApiWrapper__init__ wrapped_function_name module
      client_id client_secret storage_path client_sandbox s
    = (Return client, s') ∧
    Configuration.host (configuration (api_client (_api_instance client))) =
      (if client_sandbox then "https://sandbox-api.digikey.com/"
       else "https://api.digikey.com/") +:+ segment +:+ "/v4".
Proof.
  intros Hin Hid Hsecret Htoken.
  unfold _DigikeyApiWrapper__init__, module_getitem, TokenHandler_get_access_token.
  unfold token_request in Htoken. py_unfold.
  set_unfold in Hin.
  destruct Hin as [[= -> ->]|[[= -> ->]|[[= -> ->]|[]]]]; simpl;
    rewrite !bool_decide_false by done; simpl;
    destruct client_sandbox; simpl; rewrite Htoken;
    do 2 eexists; split; reflexivity.
Qed.

(** *** Sinks that are not dicts *)

(** When the operation is not there, or [authorization] is also among the
    caller's keywords, the call fails before any sink is looked at. *)
Lemma call_api_function_not_called (self : _DigikeyApiWrapper)
    (args : list value) (api_limits status : value)
    (kwargs : gmap string value) (s : state) :
  getattr_operation (_api_instance self) (wrapped_function_name self) = None ∨
  is_Some (kwargs !! "authorization") →
  call_api_function self args api_limits status kwargs s =
  call_api_function self args VNone VNone kwargs s.
Proof.
  unfold call_api_function, try_except, getattr, call, mbind, py_bind.
  intros [Hget|[a Hkw]].
  - rewrite Hget. reflexivity.
  - rewrite Hkw.
    by destruct (getattr_operation (_api_instance self) (wrapped_function_name self)).
Qed.

Lemma operation_result_cases (self : _DigikeyApiWrapper) (args : list value)
    (kwargs : gmap string value) (w : World) :
  (getattr_operation (_api_instance self) (wrapped_function_name self) = None ∨
   is_Some (kwargs !! "authorization")) ∨
  ∃ r w', operation_result self args kwargs w r w'.
Proof.
  destruct (getattr_operation (_api_instance self) (wrapped_function_name self))
    as [func|] eqn:Hget; [|by left; left].
  destruct (kwargs !! "authorization") as [a|] eqn:Hkw; [by left; right; eauto|].
  right.
  destruct (func (args ++ [x_digikey_client_id self])
              (<["authorization" := VStr (authorization self)]> kwargs) w)
    as [r w'] eqn:Hfunc.
  exists r, w', func. done.
Qed.

(** C9.  A sink that is [None] or not a dict is skipped, silently.  On
    such an [api_limits] the step [_remaining_requests] returns at once and
    leaves the state as it is, whatever the headers; on such a [status] the
    step [_store_api_statuscode] does, whatever the status code.  So in a
    dispatch whose operation answers: with such an [api_limits] a returned
    response gives the payload after the status step alone; with such a
    [status] a returned response gives the payload after the counters step
    alone, and an exception of the operation, the [ApiException] of
    productinformation included, is raised again with nothing recorded.  In
    every case the call is, result, exception and final state alike, the
    call with [None] in place of the sink, and no object of the store other
    than a dict is ever written. *)
Theorem call_api_function_skips_non_dict_sinks (self : _DigikeyApiWrapper)
    (args : list value) (api_limits status : value)
    (kwargs : gmap string value) (s : state) :
  (is_dict (heap s) api_limits = false →
   ∀ header, _remaining_requests header api_limits s = (Return tt, s)) ∧
  (is_dict (heap s) status = false →
   ∀ statuscode, _store_api_statuscode statuscode status s = (Return tt, s)) ∧
  (∀ r w', operation_result self args kwargs (world s) r w' →
     let s1 := after_call self args kwargs w' s in
     (is_dict (heap s) api_limits = false → ∀ resp, r = Return resp →
      call_api_function self args api_limits status kwargs s =
      (Return (payload resp),
       (_store_api_statuscode (VInt (status_code resp)) status s1).2)) ∧
     (is_dict (heap s) status = false → ∀ resp, r = Return resp →
      call_api_function self args api_limits status kwargs s =
      (Return (payload resp),
       (_remaining_requests (headers resp) api_limits s1).2)) ∧
     (is_dict (heap s) status = false → ∀ e, r = Raise e →
      call_api_function self args api_limits status kwargs s = (Raise e, s1))) ∧
  (is_dict (heap s) api_limits = false →
   call_api_function self args api_limits status kwargs s =
   call_api_function self args VNone status kwargs s) ∧
  (is_dict (heap s) status = false →
   call_api_function self args api_limits status kwargs s =
   call_api_function self args api_limits VNone kwargs s) ∧
  (∀ l o, heap s !! l = Some o → (∀ d, o ≠ ODict d) →
    heap (call_api_function self args api_limits status kwargs s).2 !! l = Some o).
Proof.
  split; [|split; [|split]].
  { intros Hx header. by apply _remaining_requests_no_dict. }
  { intros Hx statuscode. by apply _store_api_statuscode_no_dict. }
  { intros r w' Hop s1. subst s1. split; [|split].
    - intros Hx resp ->.
      rewrite (call_api_function_returns _ _ _ _ _ _ _ _ Hop).
      by rewrite _remaining_requests_no_dict.
    - intros Hx resp ->.
      rewrite (call_api_function_returns _ _ _ _ _ _ _ _ Hop).
      rewrite _store_api_statuscode_no_dict; [done|].
      rewrite (only_dicts_written_is_dict (heap (after_call self args kwargs w' s)));
        [exact Hx|].
      apply _remaining_requests_heap_frame.
    - intros Hx e ->.
      rewrite (call_api_function_raises _ _ _ _ _ _ _ _ Hop).
      destruct e as [| | | | | |[] e_status|]; try reflexivity.
      unfold mbind, py_bind. by rewrite _store_api_statuscode_no_dict. }

  split; [|split].
  - intros Hx.
    destruct (operation_result_cases self args kwargs (world s))
      as [Hno|(r & w' & Hop)].
    { rewrite (call_api_function_not_called _ _ api_limits) by done.
      by rewrite (call_api_function_not_called _ _ VNone status). }
    destruct r as [resp|e].
    + rewrite !(call_api_function_returns _ _ _ _ _ _ _ _ Hop).
      by rewrite !_remaining_requests_no_dict.
    + by rewrite !(call_api_function_raises _ _ _ _ _ _ _ _ Hop).
  - intros Hx.
    destruct (operation_result_cases self args kwargs (world s))
      as [Hno|(r & w' & Hop)].
    { rewrite (call_api_function_not_called _ _ _ status) by done.
      by rewrite (call_api_function_not_called _ _ api_limits VNone). }
    destruct r as [resp|e].
    + rewrite !(call_api_function_returns _ _ _ _ _ _ _ _ Hop).
      rewrite !_store_api_statuscode_no_dict; [done..|].
      rewrite (only_dicts_written_is_dict (heap (after_call self args kwargs w' s)));
        [exact Hx|].
      apply _remaining_requests_heap_frame.
    + rewrite !(call_api_function_raises _ _ _ _ _ _ _ _ Hop).
      destruct e as [| | | | | |[] e_status|]; try reflexivity.
      unfold mbind, py_bind. by rewrite !_store_api_statuscode_no_dict.
  - intros l o Hl Ho.
    eapply only_dicts_written_other; [|exact Hl|exact Ho].
    apply call_api_function_heap_frame.
Qed.

(** *** The public operations *)

Lemma bind_self_attributes {A} (self : loc) (o : DigikeyApi)
    (k : DigikeyApi → py A) (s : state) :
  heap s !! self = Some (ODigikeyApi o) →
  (self_attributes self ≫= k) s = k o s.
Proof.
  intros Hself. unfold mbind, py_bind, self_attributes. by rewrite Hself.
Qed.

(** Each public operation builds its own wrapper from the four attributes
    of [self] and goes on with that wrapper; what follows asks for no
    token. *)
Lemma public_operation_constructs_wrapper (c : public_call) (self : loc)
    (api_limits status : value) (s : state) (o : DigikeyApi) :
  heap s !! self = Some (ODigikeyApi o) →
  ∃ name module (rest : _DigikeyApiWrapper → py value),
    public_operation c self api_limits status s =
    (_DigikeyApiWrapper__init__ name module (client_id o) (client_secret o)
       (storage_path o) (client_sandbox o) ≫= rest) s ∧
    is_Some (apinames module) ∧
    ∀ client, preserves no_token_request (rest client).
Proof.
  intros Hself.
  destruct c; simpl;
    unfold keyword_search, product_details, digi_reel_pricing, suggested_parts,
      status_salesorder_id, salesorder_history, batch_product_details;
    rewrite (bind_self_attributes _ _ _ _ Hself);
    do 3 eexists; (split; [reflexivity|]); (split; [by eexists|]);
    preserves_steps.
Qed.

Lemma public_operation_heap_frame (c : public_call) (self : loc)
    (api_limits status : value) :
  preserves heap_frame (public_operation c self api_limits status).
Proof.
  destruct c; simpl;
    unfold keyword_search, product_details, digi_reel_pricing, suggested_parts,
      status_salesorder_id, salesorder_history, batch_product_details;
    preserves_steps.
Qed.

(** C8.  Whatever public operation runs, with whatever arguments and sinks
    and whatever its outcome, the [DigikeyApi] object holds the same four
    attributes afterwards; and the call made its own wrapper: it asked for a
    token exactly once, with the attributes of the object (not at all when a
    credential is [None], where construction is refused). *)
Theorem public_operation_keeps_DigikeyApi (c : public_call) (self : loc)
    (api_limits status : value) (s : state) (o : DigikeyApi) :
  heap s !! self = Some (ODigikeyApi o) →
  let s' := (public_operation c self api_limits status s).2 in
  heap s' !! self = Some (ODigikeyApi o) ∧
  token_requests (trace s') =
    token_requests (trace s) ++
    (if bool_decide (client_id o ≠ VNone ∧ client_secret o ≠ VNone)
     then [token_request (client_id o) (client_secret o) (storage_path o)
             (client_sandbox o)]
     else []).
Proof.
  intros Hself s'. split.
  - eapply only_dicts_written_other; [|exact Hself|done].
    apply public_operation_heap_frame.
  - subst s'.
    destruct (public_operation_constructs_wrapper c self api_limits status s o Hself)
      as (name & module & rest & -> & Hm & Hrest).
    unfold mbind, py_bind. case_bool_decide as Hcred.
    + destruct Hcred as [Hid Hsecret].
      destruct (_DigikeyApiWrapper__init__acquires_token name module _ _
                  (storage_path o) (client_sandbox o) s Hm Hid Hsecret)
        as (_ & _ & Ht & _).
      destruct (_DigikeyApiWrapper__init__ _ _ _ _ _ _ s) as [[client|e] s1];
        simpl in Ht.
      * rewrite (Hrest client s1), Ht. unfold token_requests.
        by rewrite omap_app.
      * simpl. rewrite Ht. unfold token_requests. by rewrite omap_app.
    + rewrite _DigikeyApiWrapper__init__refuses_None; [by rewrite app_nil_r|done|].
      destruct (decide (client_id o = VNone)); [by left|].
      destruct (decide (client_secret o = VNone)); [by right|].
      by destruct Hcred.
Qed.

(** *** More on one dispatch *)

Lemma recording_steps_heap_frame (header : gmap string string) (code : Z)
    (api_limits status : value) (s : state) :
  heap_frame s (_store_api_statuscode (VInt code) status
                  (_remaining_requests header api_limits s).2).2.
Proof.
  etransitivity; [apply _remaining_requests_heap_frame|].
  apply _store_api_statuscode_heap_frame.
Qed.

(** The store after the two recording steps, non-dicts included. *)
Lemma metadata_recorded_store (header : gmap string string) (code : Z)
    (api_limits status : value) (s : state) (l : loc) :
  heap (_store_api_statuscode (VInt code) status
          (_remaining_requests header api_limits s).2).2 !! l =
  match heap s !! l with
  | Some (ODict d) => Some (ODict (sink_after header code api_limits status l d))
  | o => o
  end.
Proof.
  pose proof (recording_steps_heap_frame header code api_limits status s) as Hf.
  destruct (heap s !! l) as [o|] eqn:Hl.
  - destruct o as [d| | |];
      [by apply metadata_recorded|..];
      (eapply only_dicts_written_other; [exact Hf|exact Hl|done]).
  - specialize (Hf l). by rewrite Hl in Hf.
Qed.

(** X1.  After a dispatch whose operation returns, every object of the
    store is known: a dict holds the counters read from the headers if it
    was given as [api_limits], and on top of them the status code if it was
    given as [status] (one dict given as both holds all three entries);
    everything else is as before. *)
Theorem call_api_function_store_after_success (self : _DigikeyApiWrapper)
    (args : list value) (api_limits status : value)
    (kwargs : gmap string value) (s : state) (resp : response) (w' : World) :
  operation_result self args kwargs (world s) (Return resp) w' →
  ∃ s',
    call_api_function self args api_limits status kwargs s
      = (Return (payload resp), s') ∧
    ∀ l, heap s' !! l =
         match heap s !! l with
         | Some (ODict d) =>
             Some (ODict (sink_after (headers resp) (status_code resp)
                            api_limits status l d))
         | o => o
         end.
Proof.
  intros Hop. rewrite (call_api_function_returns _ _ _ _ _ _ _ _ Hop).
  eexists. split; [reflexivity|]. intros l.
  apply (metadata_recorded_store (headers resp) (status_code resp) api_limits
           status (after_call self args kwargs w' s) l).
Qed.

(** X2.  An exception of the operation that is not the [ApiException] of
    the productinformation package, of whatever kind, is raised again as it
    is; the store is as before, and the one call made is all that left the
    process. *)
Theorem call_api_function_reraises (self : _DigikeyApiWrapper)
    (args : list value) (api_limits status : value)
    (kwargs : gmap string value) (s : state) (e : exn) (w' : World) :
  operation_result self args kwargs (world s) (Raise e) w' →
  (∀ e_status, e ≠ ApiException productinformation e_status) →
  ∃ s',
    call_api_function self args api_limits status kwargs s = (Raise e, s') ∧
    heap s' = heap s ∧ world s' = w' ∧
    trace s' = trace s ++
      [EvApiCall (_api_instance self) (wrapped_function_name self)
                 (args ++ [x_digikey_client_id self])
                 (<["authorization" := VStr (authorization self)]> kwargs)].
Proof.
  intros Hop He. rewrite (call_api_function_raises _ _ _ _ _ _ _ _ Hop).
  destruct e as [| | | | | |pkg e_status|];
    try (eexists; split; [reflexivity|done]).
  destruct pkg; try (eexists; split; [reflexivity|done]).
  by destruct (He e_status).
Qed.

(** The status step on a dict sink, for any status value: [int] decides. *)
Lemma _store_api_statuscode_dict_any (statuscode : value) (l : loc)
    (d : gmap string value) (s : state) :
  heap s !! l = Some (ODict d) →
  _store_api_statuscode statuscode (VRef l) s =
  match (int statuscode s).1 with
  | Return n =>
      (Return tt, set_heap (<[l := ODict (<["code" := VInt n]> d)]> (heap s)) s)
  | Raise e => (Raise e, s)
  end.
Proof.
  intros Hl. unfold _store_api_statuscode. py_unfold. unfold is_dict.
  simpl. rewrite Hl.
  destruct statuscode as [|n|t|l']; simpl; rewrite ?Hl; try reflexivity.
  destruct (int_str t); simpl; rewrite ?Hl; reflexivity.
Qed.

Lemma int_state_independent (v : value) (s s' : state) :
  (int v s).1 = (int v s').1.
Proof.
  unfold int. py_unfold. destruct v as [|n|t|l]; try reflexivity.
  by destruct (int_str t).
Qed.

(** X3.  When the operation raises the [ApiException] of the
    productinformation package and [status] is a dict, [int] of the status
    the exception carries decides: if it gives [n], the code [n] is recorded
    and the same exception is raised again; if it raises (the status is
    [None], or text that is no number), that error replaces the API error
    and the store is as before. *)
Theorem call_api_function_ProductInfoApiException_status
    (self : _DigikeyApiWrapper) (args : list value) (api_limits : value)
    (l : loc) (d : gmap string value) (kwargs : gmap string value) (s : state)
    (e_status : value) (w' : World) :
  operation_result self args kwargs (world s)
    (Raise (ApiException productinformation e_status)) w' →
  heap s !! l = Some (ODict d) →
  let r := call_api_function self args api_limits (VRef l) kwargs s in
  match (int e_status s).1 with
  | Return n =>
      r.1 = Raise (ApiException productinformation e_status) ∧
      heap r.2 !! l = Some (ODict (<["code" := VInt n]> d))
  | Raise e' => r.1 = Raise e' ∧ heap r.2 = heap s
  end.
Proof.
  intros Hop Hl r. subst r.
  rewrite (call_api_function_raises _ _ _ _ _ _ _ _ Hop).
  unfold mbind, py_bind.
  rewrite (_store_api_statuscode_dict_any e_status l d
             (after_call self args kwargs w' s)) by exact Hl.
  rewrite (int_state_independent e_status s (after_call self args kwargs w' s)).
  destruct (int e_status (after_call self args kwargs w' s)).1 as [n|e'].
  - simpl. split; [reflexivity|apply lookup_insert_eq].
  - simpl. split; reflexivity.
Qed.

(** X4.  When the generated class has no operation of the wrapped name,
    the dispatch raises [AttributeError] for that name; nothing is called
    and the state is as before. *)
Theorem call_api_function_missing_operation (self : _DigikeyApiWrapper)
    (args : list value) (api_limits status : value)
    (kwargs : gmap string value) (s : state) :
  getattr_operation (_api_instance self) (wrapped_function_name self) = None →
  call_api_function self args api_limits status kwargs s
  = (Raise (AttributeError (wrapped_function_name self)), s).
Proof.
  intros Hget.
  unfold call_api_function, try_except, getattr, mbind, py_bind.
  rewrite Hget. reflexivity.
Qed.

(** X5.  A caller who passes [authorization] among the keyword arguments
    gets a [TypeError]: the wrapper gives that keyword itself, the operation
    is not called and the state is as before. *)
Theorem call_api_function_duplicate_authorization (self : _DigikeyApiWrapper)
    (args : list value) (api_limits status : value)
    (kwargs : gmap string value) (s : state)
    (func : list value → gmap string value → World → outcome response * World) :
  getattr_operation (_api_instance self) (wrapped_function_name self) = Some func →
  is_Some (kwargs !! "authorization") →
  ∃ msg,
    call_api_function self args api_limits status kwargs s
    = (Raise (TypeError msg), s).
Proof.
  intros Hget [a Hkw].
  unfold call_api_function, try_except, getattr, call, mbind, py_bind.
  rewrite Hget. cbn [mret py_ret]. rewrite Hkw. by eexists.
Qed.

(** What a dispatch adds to the trace, whatever its outcome. *)
Lemma call_api_function_trace (self : _DigikeyApiWrapper) (args : list value)
    (api_limits status : value) (kwargs : gmap string value) (s : state) :
  let s' := (call_api_function self args api_limits status kwargs s).2 in
  (world s' = world s ∧ trace s' = trace s) ∨
  trace s' = trace s ++
    [EvApiCall (_api_instance self) (wrapped_function_name self)
               (args ++ [x_digikey_client_id self])
               (<["authorization" := VStr (authorization self)]> kwargs)].
Proof.
  intros s'. subst s'.
  destruct (operation_result_cases self args kwargs (world s))
    as [Hno|(r & w' & Hop)].
  - left. rewrite call_api_function_not_called by done.
    destruct Hno as [Hget|[a Hkw]].
    + unfold call_api_function, try_except, getattr, mbind, py_bind.
      by rewrite Hget.
    + unfold call_api_function, try_except, getattr, call, mbind, py_bind.
      rewrite Hkw.
      by destruct (getattr_operation (_api_instance self) (wrapped_function_name self)).
  - right. destruct r as [resp|e].
    + rewrite (call_api_function_returns _ _ _ _ _ _ _ _ Hop). cbn [snd].
      destruct (metadata_recorded (headers resp) (status_code resp)
                  api_limits status (after_call self args kwargs w' s))
        as (_ & Ht & _).
      exact Ht.
    + rewrite (call_api_function_raises _ _ _ _ _ _ _ _ Hop).
      destruct e as [| | | | | |[] e_status|]; try reflexivity.
      unfold mbind, py_bind.
      destruct (_store_api_statuscode_no_io e_status status
                  (after_call self args kwargs w' s)) as [_ Ht].
      destruct (_store_api_statuscode e_status status
                  (after_call self args kwargs w' s)) as [[[]|e'] s1];
        simpl in *; exact Ht.
Qed.

(** X6.  A dispatch never asks for a token and never calls twice: whatever
    the outcome, the trace is as before or longer by the one call of the
    wrapped operation; there is no retry. *)
Theorem call_api_function_at_most_one_call (self : _DigikeyApiWrapper)
    (args : list value) (api_limits status : value)
    (kwargs : gmap string value) (s : state) :
  let s' := (call_api_function self args api_limits status kwargs s).2 in
  token_requests (trace s') = token_requests (trace s) ∧
  (api_calls (trace s') = api_calls (trace s) ∨
   api_calls (trace s') = api_calls (trace s) ++
     [EvApiCall (_api_instance self) (wrapped_function_name self)
                (args ++ [x_digikey_client_id self])
                (<["authorization" := VStr (authorization self)]> kwargs)]).
Proof.
  intros s'. split; [apply call_api_function_no_token_request|].
  destruct (call_api_function_trace self args api_limits status kwargs s)
    as [[_ Ht]|Ht]; fold s' in Ht; rewrite Ht.
  - by left.
  - right. unfold api_calls. by rewrite omap_app.
Qed.

(** *** More on the construction of the wrapper *)

Lemma _DigikeyApiWrapper__init__heap (name : string) (module : py_module)
    (cid secret path : value) (sb : bool) (s : state) :
  heap (_DigikeyApiWrapper__init__ name module cid secret path sb s).2 = heap s.
Proof.
  unfold _DigikeyApiWrapper__init__, module_getitem, TokenHandler_get_access_token.
  py_unfold.
  destruct module; simpl; try reflexivity;
    (destruct (bool_decide (cid = VNone) || bool_decide (secret = VNone));
     [reflexivity|]);
    destruct sb; simpl;
    by destruct (get_access_token _ _) as [[tok|e] w].
Qed.

(** What a returned wrapper tells about its construction. *)
Lemma _DigikeyApiWrapper__init__Return_inv (name : string) (module : py_module)
    (cid secret path : value) (sb : bool) (s s1 : state)
    (client : _DigikeyApiWrapper) :
  _DigikeyApiWrapper__init__ name module cid secret path sb s = (Return client, s1) →
  cid ≠ VNone ∧ secret ≠ VNone ∧
  wrapped_function_name client = name ∧
  x_digikey_client_id client = cid ∧
  heap s1 = heap s ∧
  trace s1 = trace s ++ [EvGetAccessToken (token_request cid secret path sb)] ∧
  ∃ token,
    get_access_token (token_request cid secret path sb) (world s)
      = (Return token, world s1) ∧
    authorization client = Token.get_authorization token.
Proof.
  unfold _DigikeyApiWrapper__init__, module_getitem, TokenHandler_get_access_token,
    token_request.
  py_unfold.
  destruct (decide (cid = VNone)) as [->|Hid];
    [by destruct module|].
  destruct (decide (secret = VNone)) as [->|Hsecret];
    [destruct module; simpl; rewrite ?orb_true_r; discriminate|].
  destruct module; simpl; try discriminate;
    rewrite !bool_decide_false by done; simpl;
    destruct sb; simpl;
    destruct (get_access_token _ _) as [[tok|e] w] eqn:Htok; simpl;
    intros [= <- <-]; simpl; eauto 10.
Qed.

Lemma operation_module_known (c : public_call) :
  is_Some (apinames (operation_module c)).
Proof. by destruct c; eexists. Qed.

(** X8.  For each of the three packages, with both credentials given and a
    token granted, construction returns a wrapper built around the API class
    of the package and a client of that package, configured with the client
    id under the API key [X-DIGIKEY-Client-Id] and the access token of the
    token object; the wrapper keeps the operation name, the client id, the
    token, its authorization value and the sandbox flag.  The token was
    asked for once, for the caller's credentials and storage path, version 3
    and that flag, and the store is as before. *)
Theorem _DigikeyApiWrapper__init__client (name : string) (module : py_module)
    (c : api_class) (cid secret path : value) (sb : bool)
    (s : state) (token : Token.t) (w' : World) :
  (module, c) ∈ [(productinformation, ProductSearchApi);
                 (ordersupport, OrderDetailsApi);
                 (batchproductdetails, BatchSearchApi)] →
  cid ≠ VNone → secret ≠ VNone →
  get_access_token (token_request cid secret path sb) (world s) = (Return token, w') →
  ∃ client,
    _DigikeyApiWrapper__init__ name module cid secret path sb s
    = (Return client,
       {| heap := heap s; world := w';
          trace := trace s ++ [EvGetAccessToken (token_request cid secret path sb)] |}) ∧
    wrapped_function_name client = name ∧
    x_digikey_client_id client = cid ∧
    _digikeyApiToken client = token ∧
    authorization client = Token.get_authorization token ∧
    sandbox client = sb ∧
    instance_class (_api_instance client) = c ∧
    client_module (api_client (_api_instance client)) = module ∧
    Configuration.access_token (configuration (api_client (_api_instance client)))
      = Token.access_token token ∧
    Configuration.api_key (configuration (api_client (_api_instance client)))
      !! "X-DIGIKEY-Client-Id" = Some cid.
Proof.
  intros Hin Hid Hsecret Htoken.
  unfold _DigikeyApiWrapper__init__, module_getitem, TokenHandler_get_access_token.
  unfold token_request in *. py_unfold.
  set_unfold in Hin.
  destruct Hin as [[= -> ->]|[[= -> ->]|[[= -> ->]|[]]]]; simpl;
    rewrite !bool_decide_false by done; simpl;
    destruct sb; simpl; rewrite Htoken;
    (eexists; split; [reflexivity|]); simpl;
    repeat split; apply lookup_insert_eq.
Qed.

(** With both credentials given, a refusal of the token handler is the
    outcome of the construction, after the one request. *)
Lemma _DigikeyApiWrapper__init__token_refused (name : string)
    (module : py_module) (cid secret path : value) (sb : bool) (s : state)
    (e : exn) (w' : World) :
  is_Some (apinames module) →
  cid ≠ VNone → secret ≠ VNone →
  get_access_token (token_request cid secret path sb) (world s) = (Raise e, w') →
  _DigikeyApiWrapper__init__ name module cid secret path sb s
  = (Raise e,
     {| heap := heap s; world := w';
        trace := trace s ++ [EvGetAccessToken (token_request cid secret path sb)] |}).
Proof.
  intros Hm Hid Hsecret Htoken.
  unfold _DigikeyApiWrapper__init__, module_getitem, TokenHandler_get_access_token.
  unfold token_request in *. py_unfold.
  destruct module; simpl; try (by destruct Hm);
    rewrite !bool_decide_false by done; simpl;
    destruct sb; simpl; rewrite Htoken; reflexivity.
Qed.

Lemma _DigikeyApiWrapper__init__token_granted (name : string)
    (module : py_module) (cid secret path : value) (sb : bool) (s : state)
    (token : Token.t) (w' : World) :
  is_Some (apinames module) →
  cid ≠ VNone → secret ≠ VNone →
  get_access_token (token_request cid secret path sb) (world s) = (Return token, w') →
  ∃ client,
    _DigikeyApiWrapper__init__ name module cid secret path sb s
    = (Return client,
       {| heap := heap s; world := w';
          trace := trace s ++ [EvGetAccessToken (token_request cid secret path sb)] |}).
Proof.
  intros Hm Hid Hsecret Htoken.
  unfold _DigikeyApiWrapper__init__, module_getitem, TokenHandler_get_access_token.
  unfold token_request in *. py_unfold.
  destruct module; simpl; try (by destruct Hm);
    rewrite !bool_decide_false by done; simpl;
    destruct sb; simpl; rewrite Htoken; eexists; reflexivity.
Qed.

(** *** More on the public operations *)

Lemma isinstance_model_is_model (x : value) (cls : model_class) (s : state) :
  isinstance_model x cls s = (Return (is_model (heap s) x cls), s).
Proof. reflexivity. Qed.

(** The seven methods follow one scheme: read the four attributes, build
    the wrapper for the operation and the package of the method, check the
    arguments, dispatch. *)
Lemma public_operation_scheme (c : public_call) (self : loc)
    (api_limits status : value) (s : state) (o : DigikeyApi) :
  heap s !! self = Some (ODigikeyApi o) →
  public_operation c self api_limits status s =
  match _DigikeyApiWrapper__init__ (operation_name c) (operation_module c)
          (client_id o) (client_secret o) (storage_path o) (client_sandbox o) s with
  | (Return client, s1) =>
      if arguments_ok (heap s1) c
      then call_api_function client (positional c) api_limits status (keywords c) s1
      else (Raise AssertionError, s1)
  | (Raise e, s1) => (Raise e, s1)
  end.
Proof.
  intros Hself.
  destruct c; simpl;
    unfold keyword_search, product_details, digi_reel_pricing, suggested_parts,
      status_salesorder_id, salesorder_history, batch_product_details;
    rewrite (bind_self_attributes _ _ _ _ Hself);
    unfold mbind, py_bind;
    destruct (_DigikeyApiWrapper__init__ _ _ _ _ _ _ s) as [[client|e] s1];
    try reflexivity;
    rewrite ?isinstance_model_is_model; unfold assert;
    repeat match goal with
           | |- context [is_model ?h ?x ?cls] => destruct (is_model h x cls)
           | |- context [isinstance_str ?x] => destruct (isinstance_str x)
           | |- context [isinstance_int ?x] => destruct (isinstance_int x)
           end;
    reflexivity.
Qed.

(** X9.  With [None] as [client_id] or [client_secret] on the object,
    every public operation raises [DigikeyError], whatever its arguments
    (wrongly typed ones included, the wrapper being built before they are
    checked); nothing leaves the process and the state is as before. *)
Theorem public_operation_None_credentials (c : public_call) (self : loc)
    (api_limits status : value) (s : state) (o : DigikeyApi) :
  heap s !! self = Some (ODigikeyApi o) →
  client_id o = VNone ∨ client_secret o = VNone →
  public_operation c self api_limits status s
  = (Raise (DigikeyError
              "Please provide a valid DIGIKEY_CLIENT_ID and DIGIKEY_CLIENT_SECRET"),
     s).
Proof.
  intros Hself Hnone. rewrite (public_operation_scheme _ _ _ _ _ _ Hself).
  rewrite _DigikeyApiWrapper__init__refuses_None;
    [reflexivity|apply operation_module_known|exact Hnone].
Qed.

(** X10.  When the token handler refuses, every public operation raises
    the handler's exception; the token request is all that left the process,
    no operation of the API is called and the store is as before. *)
Theorem public_operation_token_refused (c : public_call) (self : loc)
    (api_limits status : value) (s : state) (o : DigikeyApi) (e : exn)
    (w' : World) :
  heap s !! self = Some (ODigikeyApi o) →
  client_id o ≠ VNone → client_secret o ≠ VNone →
  get_access_token
    (token_request (client_id o) (client_secret o) (storage_path o)
       (client_sandbox o)) (world s) = (Raise e, w') →
  public_operation c self api_limits status s
  = (Raise e,
     {| heap := heap s; world := w';
        trace := trace s ++
          [EvGetAccessToken
             (token_request (client_id o) (client_secret o) (storage_path o)
                (client_sandbox o))] |}).
Proof.
  intros Hself Hid Hsecret Htoken.
  rewrite (public_operation_scheme _ _ _ _ _ _ Hself).
  by rewrite (_DigikeyApiWrapper__init__token_refused _ _ _ _ _ _ _ e w'
                (operation_module_known c) Hid Hsecret Htoken).
Qed.

(** X11.  An argument of the wrong type is found out only after the
    wrapper is built: with credentials given and a token granted, the
    operation raises [AssertionError] once the token request has been made;
    no operation of the API is called and the store is as before. *)
Theorem public_operation_wrong_argument (c : public_call) (self : loc)
    (api_limits status : value) (s : state) (o : DigikeyApi) (token : Token.t)
    (w' : World) :
  heap s !! self = Some (ODigikeyApi o) →
  client_id o ≠ VNone → client_secret o ≠ VNone →
  get_access_token
    (token_request (client_id o) (client_secret o) (storage_path o)
       (client_sandbox o)) (world s) = (Return token, w') →
  arguments_ok (heap s) c = false →
  public_operation c self api_limits status s
  = (Raise AssertionError,
     {| heap := heap s; world := w';
        trace := trace s ++
          [EvGetAccessToken
             (token_request (client_id o) (client_secret o) (storage_path o)
                (client_sandbox o))] |}).
Proof.
  intros Hself Hid Hsecret Htoken Hargs.
  rewrite (public_operation_scheme _ _ _ _ _ _ Hself).
  destruct (_DigikeyApiWrapper__init__token_granted (operation_name c) _ _ _ _ _ _
              token w' (operation_module_known c) Hid Hsecret Htoken)
    as [client ->].
  simpl. by rewrite Hargs.
Qed.

(** X12.  How a public operation composes: when the wrapper is built, the
    arguments pass the checks and the wrapped operation returns, the public
    operation returns the payload.  The operation called is the one the
    method names, on the wrapper's API instance, with the method's
    positional arguments followed by the client id of the object, and the
    method's keyword arguments plus the authorization value of the token;
    the sinks are not among them.  Every dict of the store then holds what
    the recording steps leave in it. *)
Theorem public_operation_returns (c : public_call) (self : loc)
    (api_limits status : value) (s s1 : state) (o : DigikeyApi)
    (client : _DigikeyApiWrapper) (resp : response) (w2 : World) :
  heap s !! self = Some (ODigikeyApi o) →
  _DigikeyApiWrapper__init__ (operation_name c) (operation_module c)
    (client_id o) (client_secret o) (storage_path o) (client_sandbox o) s
  = (Return client, s1) →
  arguments_ok (heap s) c = true →
  operation_result client (positional c) (keywords c) (world s1) (Return resp) w2 →
  ∃ s',
    public_operation c self api_limits status s = (Return (payload resp), s') ∧
    world s' = w2 ∧
    trace s' = trace s ++
      [EvGetAccessToken
         (token_request (client_id o) (client_secret o) (storage_path o)
            (client_sandbox o));
       EvApiCall (_api_instance client) (operation_name c)
         (positional c ++ [client_id o])
         (<["authorization" := VStr (authorization client)]> (keywords c))] ∧
    ∀ l d, heap s !! l = Some (ODict d) →
      heap s' !! l =
      Some (ODict (sink_after (headers resp) (status_code resp)
                     api_limits status l d)).
Proof.
  intros Hself Hinit Hargs Hop.
  rewrite (public_operation_scheme _ _ _ _ _ _ Hself), Hinit.
  destruct (_DigikeyApiWrapper__init__Return_inv _ _ _ _ _ _ _ _ _ Hinit)
    as (_ & _ & Hname & Hcid & Hheap & Htrace & _).
  rewrite Hheap, Hargs.
  rewrite (call_api_function_returns _ _ _ _ _ _ _ _ Hop).
  destruct (metadata_recorded (headers resp) (status_code resp) api_limits status
              (after_call client (positional c) (keywords c) w2 s1))
    as (Hw & Ht & Hh).
  eexists. split; [reflexivity|]. split; [exact Hw|]. split.
  - rewrite Ht. simpl. rewrite Htrace, Hname, Hcid, <- app_assoc. reflexivity.
  - intros l d Hl. apply Hh. simpl. by rewrite Hheap.
Qed.

(** X13.  What a public operation lets out of the process, whatever its
    outcome: nothing, or one token request for the credentials of the
    object, or that request followed by one call of the operation the method
    names.  No call is made without a token, none is repeated. *)
Theorem public_operation_io (c : public_call) (self : loc)
    (api_limits status : value) (s : state) (o : DigikeyApi) :
  heap s !! self = Some (ODigikeyApi o) →
  let s' := (public_operation c self api_limits status s).2 in
  let req := token_request (client_id o) (client_secret o) (storage_path o)
               (client_sandbox o) in
  trace s' = trace s ∨
  trace s' = trace s ++ [EvGetAccessToken req] ∨
  ∃ inst kwargs,
    trace s' = trace s ++
      [EvGetAccessToken req;
       EvApiCall inst (operation_name c) (positional c ++ [client_id o]) kwargs].
Proof.
  intros Hself s' req. subst s' req.
  rewrite (public_operation_scheme _ _ _ _ _ _ Hself).
  destruct (_DigikeyApiWrapper__init__ _ _ _ _ _ _ s) as [[client|e] s1] eqn:Hinit.
  - destruct (_DigikeyApiWrapper__init__Return_inv _ _ _ _ _ _ _ _ _ Hinit)
      as (_ & _ & Hname & Hcid & _ & Htrace & _).
    destruct (arguments_ok (heap s1) c); [|by right; left].
    destruct (call_api_function_trace client (positional c) api_limits status
                (keywords c) s1) as [[_ Ht]|Ht]; simpl in Ht.
    + right; left. by rewrite Ht.
    + right; right. do 2 eexists.
      rewrite Ht, Htrace, Hname, Hcid, <- app_assoc. reflexivity.
  - simpl.
    destruct (decide (client_id o = VNone)) as [Hid|Hid].
    { rewrite _DigikeyApiWrapper__init__refuses_None in Hinit;
        [|apply operation_module_known|by left].
      left. congruence. }
    destruct (decide (client_secret o = VNone)) as [Hsecret|Hsecret].
    { rewrite _DigikeyApiWrapper__init__refuses_None in Hinit;
        [|apply operation_module_known|by right].
      left. congruence. }
    destruct (_DigikeyApiWrapper__init__acquires_token (operation_name c)
                (operation_module c) _ _ (storage_path o) (client_sandbox o) s
                (operation_module_known c) Hid Hsecret) as (_ & _ & Ht & _).
    rewrite Hinit in Ht. right; left. exact Ht.
Qed.

(** *** The entries a call may write *)

#[local] Instance sink_frame_refl (api_limits status : value) :
  Reflexive (sink_frame api_limits status).
Proof.
  intros s l. destruct (heap s !! l) as [[d| | |]|] eqn:Hl; eauto.
Qed.

#[local] Instance sink_frame_trans (api_limits status : value) :
  Transitive (sink_frame api_limits status).
Proof.
  intros s1 s2 s3 H12 H23 l. specialize (H12 l). specialize (H23 l).
  destruct (heap s1 !! l) as [[d| | |]|];
    try (rewrite H12 in H23; exact H23).
  destruct H12 as (d2 & H2 & Hk2). rewrite H2 in H23.
  destruct H23 as (d3 & H3 & Hk3). exists d3. split; [exact H3|].
  intros k Hk. by rewrite Hk3, Hk2.
Qed.

Lemma sink_frame_same_heap (api_limits status : value) (s s' : state) :
  heap s' = heap s → sink_frame api_limits status s s'.
Proof.
  intros Hh l. rewrite Hh. destruct (heap s !! l) as [[d| | |]|]; eauto.
Qed.

Lemma setitem_sink_frame (api_limits status x : value) (k : string) (v : value) :
  (∀ l, x = VRef l → may_write api_limits status l k) →
  preserves (sink_frame api_limits status) (setitem x k v).
Proof.
  intros Hx s. unfold setitem.
  destruct x as [| | |l]; try reflexivity.
  destruct (heap s !! l) as [[d| | |]|] eqn:Hl; try reflexivity.
  intros l'. simpl. destruct (decide (l' = l)) as [->|Hne].
  - rewrite Hl, lookup_insert_eq. eexists. split; [reflexivity|].
    intros k' Hk'. apply lookup_insert_ne. intros <-. by apply Hk', Hx.
  - rewrite lookup_insert_ne by done.
    destruct (heap s !! l') as [[d'| | |]|]; eauto.
Qed.

Lemma _remaining_requests_sink_frame (header : gmap string string)
    (api_limits status : value) :
  preserves (sink_frame api_limits status) (_remaining_requests header api_limits).
Proof.
  unfold _remaining_requests.
  preserves_steps;
    (apply setitem_sink_frame; intros l ->; left; auto).
Qed.

Lemma _store_api_statuscode_sink_frame (statuscode api_limits status : value) :
  preserves (sink_frame api_limits status) (_store_api_statuscode statuscode status).
Proof.
  unfold _store_api_statuscode.
  preserves_steps; (apply setitem_sink_frame; intros l ->; right; auto).
Qed.

Lemma call_sink_frame (api_limits status : value) (inst : ApiInstance)
    (name : string)
    (func : list value → gmap string value → World → outcome response * World)
    (args : list value) (keyword : string) (a : value)
    (kwargs : gmap string value) :
  preserves (sink_frame api_limits status)
    (call inst name func args keyword a kwargs).
Proof.
  intros s. apply sink_frame_same_heap. unfold call.
  destruct (kwargs !! keyword); [reflexivity|].
  by destruct (func _ _ _).
Qed.

#[local] Hint Resolve _remaining_requests_sink_frame
  _store_api_statuscode_sink_frame call_sink_frame : preserves.

Lemma call_api_function_sink_frame (self : _DigikeyApiWrapper)
    (args : list value) (api_limits status : value) (kwargs : gmap string value) :
  preserves (sink_frame api_limits status)
    (call_api_function self args api_limits status kwargs).
Proof. unfold call_api_function. preserves_steps. Qed.

(** X14.  Whatever a public operation does and however it ends, the store
    afterwards differs from the store before at most in the entries
    [api_requests_limit] and [api_requests_remaining] of the dict given as
    [api_limits] and the entry [code] of the dict given as [status]: every
    other entry of those dicts, every other dict and every other object is
    as before. *)
Theorem public_operation_writes_sink_entries_only (c : public_call) (self : loc)
    (api_limits status : value) (s : state) (o : DigikeyApi) :
  heap s !! self = Some (ODigikeyApi o) →
  only_sink_entries_written api_limits status (heap s)
    (heap (public_operation c self api_limits status s).2).
Proof.
  intros Hself. rewrite (public_operation_scheme _ _ _ _ _ _ Hself).
  pose proof (_DigikeyApiWrapper__init__heap (operation_name c)
                (operation_module c) (client_id o) (client_secret o)
                (storage_path o) (client_sandbox o) s) as Hheap.
  destruct (_DigikeyApiWrapper__init__ _ _ _ _ _ _ s) as [[client|e] s1];
    simpl in Hheap.
  - destruct (arguments_ok (heap s1) c).
    + rewrite <- Hheap.
      apply (call_api_function_sink_frame client (positional c) api_limits
               status (keywords c) s1).
    + by apply sink_frame_same_heap.
  - by apply sink_frame_same_heap.
Qed.

End Properties.

(** ** The code on concrete inputs *)

#[local] Existing Instance scripted.

Lemma scripted_operation_result (self : _DigikeyApiWrapper) (args : list value)
    (kwargs : gmap string value) (w : script) :
  bool_decide (wrapped_function_name self
               ∈ generated_operations (instance_class (_api_instance self))) = true →
  kwargs !! "authorization" = None →
  operation_result self args kwargs w (next_reply w) w.
Proof.
  intros Hname Hkw. eexists. split; [|split; [exact Hkw|]].
  - simpl. unfold scripted_getattr. rewrite Hname. reflexivity.
  - reflexivity.
Defined.

(** C2 on [product_details("296-24647-1-ND")] answered with status 200. *)
Lemma call_api_function_returns_payload_witness :
  ∃ s',
    call_api_function product_details_client [VStr "296-24647-1-ND"]
      (VRef 0%nat) (VRef 1%nat) ∅ (start objects (replies (Return (a_response ∅))))
    = (Return (VStr "payload"), s') ∧
    trace s' = [EvApiCall (_api_instance product_details_client)
                  "product_details_with_http_info"
                  [VStr "296-24647-1-ND"; VStr "id"]
                  {[ "authorization" := VStr "Bearer tok" ]}] ∧
    heap s' !! 1%nat = Some (ODict {[ "code" := VInt 200 ]}).
Proof.
  destruct (call_api_function_returns_payload product_details_client
              [VStr "296-24647-1-ND"] (VRef 0%nat) (VRef 1%nat) ∅
              (start objects (replies (Return (a_response ∅))))
              (a_response ∅) (replies (Return (a_response ∅))))
    as (s' & Hrun & _ & Htrace & _ & Hstatus).
  { apply (scripted_operation_result product_details_client); reflexivity. }
  exists s'. split; [exact Hrun|]. split; [exact Htrace|].
  destruct (Hstatus 1%nat ∅ eq_refl eq_refl) as (d1 & Hl & Hd1).
  rewrite (Hd1 ltac:(discriminate)) in Hl. exact Hl.
Defined.

(** C3 on the headers [{"X-RateLimit-Limit": "120",
    "X-RateLimit-Remaining": "119"}]. *)
Lemma call_api_function_records_rate_limits_witness :
  ∃ s',
    call_api_function product_details_client [VStr "296-24647-1-ND"]
      (VRef 0%nat) (VRef 1%nat) ∅
      (start objects (replies (Return (a_response counted_headers))))
    = (Return (VStr "payload"), s') ∧
    heap s' !! 0%nat =
      Some (ODict (<["api_requests_remaining" := VInt 119]>
                     {[ "api_requests_limit" := VInt 120 ]})).
Proof.
  destruct (call_api_function_records_rate_limits product_details_client
              [VStr "296-24647-1-ND"] 0%nat ∅ (VRef 1%nat) ∅
              (start objects (replies (Return (a_response counted_headers))))
              (a_response counted_headers)
              (replies (Return (a_response counted_headers)))
              "120" "119" 120 119)
    as (s' & d' & Hrun & Hl & _ & _ & Hd'); try reflexivity.
  { apply (scripted_operation_result product_details_client); reflexivity. }
  exists s'. split; [exact Hrun|].
  rewrite (Hd' ltac:(discriminate)) in Hl. exact Hl.
Defined.

(** C4 on a response without rate-limit headers. *)
Lemma call_api_function_malformed_rate_limits_witness :
  ∃ s' d',
    call_api_function product_details_client [VStr "296-24647-1-ND"]
      (VRef 0%nat) (VRef 1%nat) ∅ (start objects (replies (Return (a_response ∅))))
    = (Return (VStr "payload"), s') ∧
    heap s' !! 0%nat = Some (ODict d') ∧
    d' !! "api_requests_limit" = Some VNone ∧
    d' !! "api_requests_remaining" = Some VNone.
Proof.
  apply (call_api_function_malformed_rate_limits product_details_client
           [VStr "296-24647-1-ND"] 0%nat ∅ (VRef 1%nat) ∅
           (start objects (replies (Return (a_response ∅))))
           (a_response ∅) (replies (Return (a_response ∅)))).
  - apply (scripted_operation_result product_details_client); reflexivity.
  - reflexivity.
  - left. reflexivity.
Defined.

(** C10 on a limit that reads and a remaining count that does not: the
    limit, once written, is replaced by [None]. *)
Lemma _remaining_requests_coherent_witness :
  ∃ s' d',
    _remaining_requests
      (<["X-RateLimit-Limit" := "120"]> {[ "X-RateLimit-Remaining" := "soon" ]})
      (VRef 0%nat) (start objects (replies (Return (a_response ∅))))
    = (Return tt, s') ∧
    heap s' !! 0%nat = Some (ODict d') ∧
    d' !! "api_requests_limit" = Some VNone ∧
    d' !! "api_requests_remaining" = Some VNone.
Proof.
  destruct (_remaining_requests_coherent
              (<["X-RateLimit-Limit" := "120"]> {[ "X-RateLimit-Remaining" := "soon" ]})
              0%nat ∅ (start objects (replies (Return (a_response ∅)))) eq_refl)
    as (s' & d' & Hrun & Hl & [(n & m & Hr & _)|(_ & Hlim & Hrem)]).
  - discriminate Hr.
  - exists s', d'. auto.
Defined.

(** C1 on an order-status call answered with the API error 404 of the
    ordersupport package: the error comes back, the store is as before. *)
Lemma call_api_function_other_ApiException_not_recorded_witness :
  ∃ s',
    call_api_function order_status_client [VStr "12345"]
      (VRef 0%nat) (VRef 1%nat) ∅
      (start objects (replies (Raise (ApiException ordersupport (VInt 404)))))
    = (Raise (ApiException ordersupport (VInt 404)), s') ∧
    heap s' = objects.
Proof.
  apply (call_api_function_other_ApiException_not_recorded order_status_client
           [VStr "12345"] (VRef 0%nat) (VRef 1%nat) ∅
           (start objects (replies (Raise (ApiException ordersupport (VInt 404)))))
           ordersupport 404
           (replies (Raise (ApiException ordersupport (VInt 404))))).
  - discriminate.
  - apply (scripted_operation_result order_status_client); reflexivity.
Defined.

(** The same through the public operation [status_salesorder_id], with an
    empty dict as [status]: it is still empty afterwards. *)
Example status_salesorder_id_404_status_left_empty :
  let r := status_salesorder_id 3%nat (VStr "12345") (VRef 0%nat) (VRef 1%nat)
             (start objects (replies (Raise (ApiException ordersupport (VInt 404))))) in
  r.1 = Raise (ApiException ordersupport (VInt 404)) ∧
  heap r.2 !! 1%nat = Some (ODict ∅).
Proof. split; reflexivity. Qed.

(** While the productinformation error 404 is recorded. *)
Example product_details_404_status_recorded :
  let r := product_details 3%nat (VStr "296-24647-1-ND") (VRef 0%nat) (VRef 1%nat)
             (start objects (replies (Raise (ApiException productinformation (VInt 404))))) in
  r.1 = Raise (ApiException productinformation (VInt 404)) ∧
  heap r.2 !! 1%nat = Some (ODict {[ "code" := VInt 404 ]}).
Proof. split; reflexivity. Qed.

(** C5 on the order support package in the sandbox. *)
Lemma _DigikeyApiWrapper__init__host_witness :
  ∃ client s',
    _DigikeyApiWrapper__init__ "order_status_with_http_info" ordersupport
      (VStr "id") (VStr "secret") (VStr "/tmp/") true
      (start ∅ (replies (Return (a_response ∅))))
    = (Return client, s') ∧
    Configuration.host (configuration (api_client (_api_instance client))) =
      "https://sandbox-api.digikey.com/OrderDetails/v4".
Proof.
  apply (_DigikeyApiWrapper__init__host "order_status_with_http_info" ordersupport
           "OrderDetails" (VStr "id") (VStr "secret") (VStr "/tmp/") true
           (start ∅ (replies (Return (a_response ∅)))) a_token
           (replies (Return (a_response ∅)))).
  - apply list_elem_of_further, list_elem_of_here.
  - discriminate.
  - discriminate.
  - reflexivity.
Defined.



(** The same on a missing [client_id]: [DigikeyError], and the token
    handler is not turned to. *)
Example _DigikeyApiWrapper__init__None_client_id :
  _DigikeyApiWrapper__init__ "product_details_with_http_info" productinformation
    VNone (VStr "secret") (VStr "/tmp/") false
    (start objects (replies (Return (a_response ∅))))
  = (Raise (DigikeyError
              "Please provide a valid DIGIKEY_CLIENT_ID and DIGIKEY_CLIENT_SECRET"),
     start objects (replies (Return (a_response ∅)))).
Proof. reflexivity. Qed.

(** C7 on the module [sys]. *)
Lemma _DigikeyApiWrapper__init__unknown_module_witness :
  let r := _DigikeyApiWrapper__init__ "keyword_search_with_http_info"
             (other_module "sys") (VStr "id") (VStr "secret") (VStr "/tmp/") false
             (start ∅ (replies (Return (a_response ∅)))) in
  r.1 = Raise (KeyError "sys") ∧
  r.1 ≠ Raise (ValueError "Invalid module provided") ∧
  r.2 = start ∅ (replies (Return (a_response ∅))).
Proof.
  apply (_DigikeyApiWrapper__init__unknown_module "keyword_search_with_http_info"
           (other_module "sys") (VStr "id") (VStr "secret") (VStr "/tmp/") false
           (start ∅ (replies (Return (a_response ∅))))).
  intros Hin.
  repeat (apply elem_of_cons in Hin as [Hin|Hin]; [discriminate Hin|]).
  by apply elem_of_nil in Hin.
Defined.

(** C8 on [product_details("296-24647-1-ND")]. *)
Lemma public_operation_keeps_DigikeyApi_witness :
  let s' := (public_operation (Product_details (VStr "296-24647-1-ND")) 3%nat
               (VRef 0%nat) (VRef 1%nat)
               (start objects (replies (Return (a_response counted_headers))))).2 in
  heap s' !! 3%nat = Some (ODigikeyApi a_DigikeyApi) ∧
  token_requests (trace s') =
    [token_request (VStr "id") (VStr "secret") (VStr "/tmp/") false].
Proof.
  apply (public_operation_keeps_DigikeyApi (Product_details (VStr "296-24647-1-ND"))
           3%nat (VRef 0%nat) (VRef 1%nat)
           (start objects (replies (Return (a_response counted_headers))))
           a_DigikeyApi).
  reflexivity.
Defined.

(** C9 on a list given as [api_limits] and an integer given as [status]:
    the payload comes back and the store is as before. *)
Lemma call_api_function_skips_non_dict_sinks_witness :
  let s := start objects (replies (Return (a_response counted_headers))) in
  call_api_function product_details_client [VStr "296-24647-1-ND"]
    (VRef 2%nat) (VInt 7) ∅ s
  = (Return (VStr "payload"),
     after_call product_details_client [VStr "296-24647-1-ND"] ∅
       (replies (Return (a_response counted_headers))) s).
Proof.
  destruct (call_api_function_skips_non_dict_sinks product_details_client
              [VStr "296-24647-1-ND"] (VRef 2%nat) (VInt 7) ∅
              (start objects (replies (Return (a_response counted_headers)))))
    as (_ & _ & Hcall & _).
  destruct (Hcall (Return (a_response counted_headers))
              (replies (Return (a_response counted_headers))))
    as (Hlimits & _).
  { apply (scripted_operation_result product_details_client); reflexivity. }
  exact (Hlimits eq_refl (a_response counted_headers) eq_refl).
Defined.

(** The end-to-end scenario: a client made with [DigikeyApi(...)] for the
    sandbox, then [product_details("296-24647-1-ND")] answered with status
    200 and the counters 120 and 119. *)
Example product_details_end_to_end :
  let r := (self ← DigikeyApi__init__ (VStr "id") (VStr "secret") (VStr "/tmp/") true;
            product_details self (VStr "296-24647-1-ND") (VRef 0%nat) (VRef 1%nat))
             (start objects (replies (Return (a_response counted_headers)))) in
  r.1 = Return (VStr "payload") ∧
  heap r.2 !! 0%nat =
    Some (ODict (<["api_requests_remaining" := VInt 119]>
                   {[ "api_requests_limit" := VInt 120 ]})) ∧
  heap r.2 !! 1%nat = Some (ODict {[ "code" := VInt 200 ]}) ∧
  token_requests (trace r.2) =
    [token_request (VStr "id") (VStr "secret") (VStr "/tmp/") true].
Proof. vm_compute. repeat split. Qed.

(** X1 on one dict given as both sinks. *)
Lemma call_api_function_store_after_success_witness :
  ∃ s',
    call_api_function product_details_client [VStr "296-24647-1-ND"]
      (VRef 0%nat) (VRef 0%nat) ∅
      (start objects (replies (Return (a_response counted_headers))))
    = (Return (VStr "payload"), s') ∧
    heap s' !! 0%nat =
      Some (ODict (<["code" := VInt 200]>
                     (<["api_requests_remaining" := VInt 119]>
                        {[ "api_requests_limit" := VInt 120 ]}))) ∧
    heap s' !! 1%nat = Some (ODict ∅).
Proof.
  destruct (call_api_function_store_after_success product_details_client
              [VStr "296-24647-1-ND"] (VRef 0%nat) (VRef 0%nat) ∅
              (start objects (replies (Return (a_response counted_headers))))
              (a_response counted_headers)
              (replies (Return (a_response counted_headers))))
    as (s' & Hrun & Hstore).
  { apply (scripted_operation_result product_details_client); reflexivity. }
  exists s'. split; [exact Hrun|].
  split; [exact (Hstore 0%nat)|exact (Hstore 1%nat)].
Defined.

(** X2 on a connection error. *)
Lemma call_api_function_reraises_witness :
  ∃ s',
    call_api_function order_status_client [VStr "12345"]
      (VRef 0%nat) (VRef 1%nat) ∅
      (start objects (replies (Raise (OtherError "ConnectionError"))))
    = (Raise (OtherError "ConnectionError"), s') ∧
    heap s' = objects.
Proof.
  destruct (call_api_function_reraises order_status_client [VStr "12345"]
              (VRef 0%nat) (VRef 1%nat) ∅
              (start objects (replies (Raise (OtherError "ConnectionError"))))
              (OtherError "ConnectionError")
              (replies (Raise (OtherError "ConnectionError"))))
    as (s' & Hrun & Hheap & _).
  - apply (scripted_operation_result order_status_client); reflexivity.
  - discriminate.
  - exists s'. split; [exact Hrun|exact Hheap].
Defined.

(** X3 on an API error of productinformation that carries no status. *)
Lemma call_api_function_ProductInfoApiException_status_witness :
  let r := call_api_function product_details_client [VStr "296-24647-1-ND"]
             (VRef 0%nat) (VRef 1%nat) ∅
             (start objects
                (replies (Raise (ApiException productinformation VNone)))) in
  r.1 = Raise (TypeError
                 "int() argument must be a string, a bytes-like object or a real number") ∧
  heap r.2 = objects.
Proof.
  apply (call_api_function_ProductInfoApiException_status product_details_client
           [VStr "296-24647-1-ND"] (VRef 0%nat) 1%nat ∅ ∅
           (start objects (replies (Raise (ApiException productinformation VNone))))
           VNone (replies (Raise (ApiException productinformation VNone)))).
  - apply (scripted_operation_result product_details_client); reflexivity.
  - reflexivity.
Defined.

(** X4 on an operation name the product search class does not have. *)
Lemma call_api_function_missing_operation_witness :
  call_api_function
    (a_client productinformation ProductSearchApi ProductInfoConfiguration
       "order_status_with_http_info")
    [VStr "12345"] (VRef 0%nat) (VRef 1%nat) ∅
    (start objects (replies (Return (a_response ∅))))
  = (Raise (AttributeError "order_status_with_http_info"),
     start objects (replies (Return (a_response ∅)))).
Proof.
  apply (call_api_function_missing_operation
           (a_client productinformation ProductSearchApi ProductInfoConfiguration
              "order_status_with_http_info")
           [VStr "12345"] (VRef 0%nat) (VRef 1%nat) ∅
           (start objects (replies (Return (a_response ∅))))).
  reflexivity.
Defined.

(** X5 on a caller who passes [authorization="mine"]. *)
Lemma call_api_function_duplicate_authorization_witness :
  ∃ msg,
    call_api_function product_details_client [VStr "296-24647-1-ND"]
      (VRef 0%nat) (VRef 1%nat) {[ "authorization" := VStr "mine" ]}
      (start objects (replies (Return (a_response ∅))))
    = (Raise (TypeError msg), start objects (replies (Return (a_response ∅)))).
Proof.
  apply (call_api_function_duplicate_authorization product_details_client
           [VStr "296-24647-1-ND"] (VRef 0%nat) (VRef 1%nat)
           {[ "authorization" := VStr "mine" ]}
           (start objects (replies (Return (a_response ∅))))
           (λ _ _ w, (next_reply w, w))).
  - reflexivity.
  - by eexists.
Defined.

(** X8 on the batch search package. *)
Lemma _DigikeyApiWrapper__init__client_witness :
  ∃ client,
    (_DigikeyApiWrapper__init__ "batch_product_details_with_http_info"
       batchproductdetails (VStr "id") (VStr "secret") (VStr "/tmp/") false
       (start ∅ (replies (Return (a_response ∅))))).1 = Return client ∧
    instance_class (_api_instance client) = BatchSearchApi ∧
    authorization client = "Bearer tok" ∧
    Configuration.api_key (configuration (api_client (_api_instance client)))
      !! "X-DIGIKEY-Client-Id" = Some (VStr "id").
Proof.
  destruct (_DigikeyApiWrapper__init__client "batch_product_details_with_http_info"
              batchproductdetails BatchSearchApi
              (VStr "id") (VStr "secret") (VStr "/tmp/") false
              (start ∅ (replies (Return (a_response ∅)))) a_token
              (replies (Return (a_response ∅))))
    as (client & Hrun & _ & _ & _ & Hauth & _ & Hclass & _ & _ & Hkey).
  - apply list_elem_of_further, list_elem_of_further, list_elem_of_here.
  - discriminate.
  - discriminate.
  - reflexivity.
  - exists client. rewrite Hrun. auto.
Defined.

(** X9 on an object made without a secret and a part number that is not
    text. *)
Lemma public_operation_None_credentials_witness :
  public_operation (Product_details (VInt 7)) 4%nat (VRef 0%nat) (VRef 1%nat)
    (start objects_without_secret (replies (Return (a_response ∅))))
  = (Raise (DigikeyError
              "Please provide a valid DIGIKEY_CLIENT_ID and DIGIKEY_CLIENT_SECRET"),
     start objects_without_secret (replies (Return (a_response ∅)))).
Proof.
  apply (public_operation_None_credentials (Product_details (VInt 7)) 4%nat
           (VRef 0%nat) (VRef 1%nat)
           (start objects_without_secret (replies (Return (a_response ∅))))
           {| client_id := VStr "id"; client_secret := VNone;
              storage_path := VStr "/tmp/"; client_sandbox := false |}).
  - reflexivity.
  - right. reflexivity.
Defined.

(** X10 on a token endpoint that answers [invalid_client]. *)
Lemma public_operation_token_refused_witness :
  let r := public_operation (Keyword_search (VRef 2%nat)) 3%nat
             (VRef 0%nat) (VRef 1%nat) (start objects refusing) in
  r.1 = Raise (OtherError "invalid_client") ∧
  heap r.2 = objects ∧
  api_calls (trace r.2) = [].
Proof.
  rewrite (public_operation_token_refused (Keyword_search (VRef 2%nat)) 3%nat
             (VRef 0%nat) (VRef 1%nat) (start objects refusing) a_DigikeyApi
             (OtherError "invalid_client") refusing);
    [|reflexivity|discriminate|discriminate|reflexivity].
  repeat split.
Defined.

(** X11 on [digi_reel_pricing] with text as quantity. *)
Lemma public_operation_wrong_argument_witness :
  let r := public_operation (Digi_reel_pricing (VStr "296-24647-1-ND") (VStr "ten"))
             3%nat (VRef 0%nat) (VRef 1%nat)
             (start objects (replies (Return (a_response counted_headers)))) in
  r.1 = Raise AssertionError ∧
  token_requests (trace r.2) =
    [token_request (VStr "id") (VStr "secret") (VStr "/tmp/") false] ∧
  api_calls (trace r.2) = [] ∧
  heap r.2 = objects.
Proof.
  rewrite (public_operation_wrong_argument
             (Digi_reel_pricing (VStr "296-24647-1-ND") (VStr "ten"))
             3%nat (VRef 0%nat) (VRef 1%nat)
             (start objects (replies (Return (a_response counted_headers))))
             a_DigikeyApi a_token
             (replies (Return (a_response counted_headers))));
    [|reflexivity|discriminate|discriminate|reflexivity|reflexivity].
  repeat split.
Defined.

(** X12 on [status_salesorder_id("12345")] answered with status 200. *)
Lemma public_operation_returns_witness :
  ∃ s',
    public_operation (Status_salesorder_id (VStr "12345")) 3%nat
      (VRef 0%nat) (VRef 1%nat)
      (start objects (replies (Return (a_response counted_headers))))
    = (Return (VStr "payload"), s') ∧
    heap s' !! 1%nat = Some (ODict {[ "code" := VInt 200 ]}) ∧
    length (trace s') = 2%nat.
Proof.
  destruct (public_operation_returns (Status_salesorder_id (VStr "12345")) 3%nat
              (VRef 0%nat) (VRef 1%nat)
              (start objects (replies (Return (a_response counted_headers))))
              _ a_DigikeyApi _ (a_response counted_headers)
              (replies (Return (a_response counted_headers)))
              eq_refl eq_refl eq_refl)
    as (s' & Hrun & _ & Htrace & Hstore).
  { eexists. split; [reflexivity|]. split; reflexivity. }
  exists s'. split; [exact Hrun|]. split.
  - exact (Hstore 1%nat ∅ eq_refl).
  - rewrite Htrace. reflexivity.
Defined.

(** X13 on [product_details("296-24647-1-ND")]. *)
Lemma public_operation_io_witness :
  let s := start objects (replies (Return (a_response counted_headers))) in
  let s' := (public_operation (Product_details (VStr "296-24647-1-ND")) 3%nat
               (VRef 0%nat) (VRef 1%nat) s).2 in
  let req := token_request (VStr "id") (VStr "secret") (VStr "/tmp/") false in
  trace s' = trace s ∨
  trace s' = trace s ++ [EvGetAccessToken req] ∨
  ∃ inst kwargs,
    trace s' = trace s ++
      [EvGetAccessToken req;
       EvApiCall inst "product_details_with_http_info"
         [VStr "296-24647-1-ND"; VStr "id"] kwargs].
Proof.
  apply (public_operation_io (Product_details (VStr "296-24647-1-ND")) 3%nat
           (VRef 0%nat) (VRef 1%nat)
           (start objects (replies (Return (a_response counted_headers))))
           a_DigikeyApi).
  reflexivity.
Defined.

(** X14 on [product_details("296-24647-1-ND")]. *)
Lemma public_operation_writes_sink_entries_only_witness :
  only_sink_entries_written (VRef 0%nat) (VRef 1%nat) objects
    (heap (public_operation (Product_details (VStr "296-24647-1-ND")) 3%nat
             (VRef 0%nat) (VRef 1%nat)
             (start objects (replies (Return (a_response counted_headers))))).2).
Proof.
  apply (public_operation_writes_sink_entries_only
           (Product_details (VStr "296-24647-1-ND")) 3%nat
           (VRef 0%nat) (VRef 1%nat)
           (start objects (replies (Return (a_response counted_headers))))
           a_DigikeyApi).
  reflexivity.
Defined.
